(** * sex_stats.py: log parsing, normalisation and grouping

    A shallow embedding of [src/sex_stats.py] and the properties of its
    parsing and aggregation layer.

    Modelling conventions.
    - Text is ASCII: a Python [str] is a [string] of [ascii] characters.  On
      ASCII text the classes [\d] and [\w] of Python's [re] are [[0-9]] and
      [[A-Za-z0-9_]].
    - [re.match] is a backtracking matcher: alternatives are tried from left
      to right, [?] and [+] are greedy, and the first successful path wins.
      [exec] below is that matcher in continuation-passing style.
    - [class Regex(str, Enum)] members are interpolated into the f-strings by
      their pattern text (the [str] mix-in's formatting).
    - A Python exception is a [Raise e]; Python's [None] where a record is
      expected is [None] of an [option].
    - A [float] is a binary64 number, one of Rocq's primitive floats.
    - pandas is kept to the operations the program calls: a frame is its
      index length and its labelled columns, [read_csv] is a parameter of
      the reader, and [resample] returns the grouping that was asked for. *)

From Stdlib Require Import ZArith List String Ascii Bool Lia.
From Stdlib Require Uint63.
From Stdlib Require Import PrimFloat SpecFloat FloatOps.
Import ListNotations.
Local Open Scope string_scope.

Set Implicit Arguments.

(** ** Python values and exceptions *)

Inductive exn :=
| TypeError | ValueError | KeyError | AttributeError | OverflowError
| ParserError | OSError.

Inductive result (A : Type) :=
| Ok (a : A)
| Raise (e : exn).
Arguments Ok {A} a.
Arguments Raise {A} e.

Definition bind {A B} (m : result A) (f : A -> result B) : result B :=
  match m with
  | Ok a => f a
  | Raise e => Raise e
  end.

Notation "x <- m ;; f" := (bind m (fun x => f))
  (at level 61, m at next level, right associativity).

(** The dynamically typed values a [TimeStamp] field can hold. *)
Inductive value :=
| VNone
| VStr (s : string)
| VInt (z : Z).

(** ** The regular expressions of [re] that the program uses *)

Module Re.

(** One-character sets. *)
Inductive cset :=
| Digit                      (* \d *)
| Word                       (* \w *)
| AnyChar                    (* .  (no DOTALL: anything but a newline) *)
| Range (lo hi : ascii)      (* [lo-hi] *)
| OneOf (cs : string).       (* [abc] *)

Inductive regex :=
| Eps                               (* the empty pattern *)
| Lit (c : ascii)                   (* a literal character *)
| Cls (p : cset)                    (* a character set *)
| Cat (a b : regex)                 (* ab *)
| Alt (a b : regex)                 (* a|b *)
| Opt (a : regex)                   (* a? , greedy *)
| Plus (p : cset)                   (* p+ , greedy, on a character set *)
| Group (name : string) (a : regex) (* (?P<name>a) *).

Definition code (c : ascii) : N := N_of_ascii c.

Definition between (lo hi c : ascii) : bool :=
  (code lo <=? code c)%N && (code c <=? code hi)%N.

Definition is_digit (c : ascii) : bool := between "0" "9" c.

Definition is_word (c : ascii) : bool :=
  between "a" "z" c || between "A" "Z" c || is_digit c || Ascii.eqb c "_".

Fixpoint mem_string (c : ascii) (cs : string) : bool :=
  match cs with
  | EmptyString => false
  | String x t => Ascii.eqb c x || mem_string c t
  end.

Definition cset_mem (p : cset) (c : ascii) : bool :=
  match p with
  | Digit => is_digit c
  | Word => is_word c
  | AnyChar => negb (Ascii.eqb c "010")
  | Range lo hi => between lo hi c
  | OneOf cs => mem_string c cs
  end.

(** The groups of a match in progress, the latest capture first. *)
Definition groups := list (string * string).

Fixpoint group (g : groups) (name : string) : option string :=
  match g with
  | [] => None
  | (n, v) :: g' => if String.eqb n name then Some v else group g' name
  end.

Section Matcher.
Variable A : Type.

(** [p+]: one character of [p], then as many more as possible, giving
    them back one at a time while the rest of the pattern fails.  The
    continuation gets the text matched and the text left. *)
Fixpoint plus_loop (p : cset) (s : string) (k : string -> string -> option A)
  : option A :=
  match s with
  | EmptyString => None
  | String x t =>
      if cset_mem p x then
        match plus_loop p t (fun w s' => k (String x w) s') with
        | Some r => Some r
        | None => k (String x "") t
        end
      else None
  end.

(** [exec r s g k]: match [r] at the front of [s] with groups [g], then
    run the rest of the pattern [k] on the text matched, the text left and
    the groups; when [k] fails the next alternative of [r] is tried. *)
Fixpoint exec (r : regex) (s : string) (g : groups)
         (k : string -> string -> groups -> option A) : option A :=
  match r with
  | Eps => k "" s g
  | Lit c =>
      match s with
      | String x t => if Ascii.eqb x c then k (String x "") t g else None
      | EmptyString => None
      end
  | Cls p =>
      match s with
      | String x t => if cset_mem p x then k (String x "") t g else None
      | EmptyString => None
      end
  | Cat a b =>
      exec a s g (fun w1 s1 g1 => exec b s1 g1 (fun w2 => k (w1 ++ w2)))
  | Alt a b =>
      match exec a s g k with
      | Some x => Some x
      | None => exec b s g k
      end
  | Opt a =>
      match exec a s g k with
      | Some x => Some x
      | None => k "" s g
      end
  | Plus p => plus_loop p s (fun w s' => k w s' g)
  | Group name a => exec a s g (fun w s' g' => k w s' ((name, w) :: g'))
  end.
End Matcher.

(** [re.match(r, s)]: the match is anchored at the start of [s] (which is
    also all that the patterns' leading [^] asks for) and may stop anywhere. *)
Definition re_match (r : regex) (s : string) : option groups :=
  exec r s [] (fun _ _ g => Some g).

(** A literal word, and [r{n}]. *)
Fixpoint lit (w : string) : regex :=
  match w with
  | EmptyString => Eps
  | String c t => Cat (Lit c) (lit t)
  end.

Fixpoint rep (n : nat) (r : regex) : regex :=
  match n with
  | O => Eps
  | S n' => Cat r (rep n' r)
  end.

(** The names of the groups of a pattern, the keys of [groupdict()]. *)
Fixpoint names (r : regex) : list string :=
  match r with
  | Eps | Lit _ | Cls _ | Plus _ => []
  | Cat a b | Alt a b => names a ++ names b
  | Opt a => names a
  | Group name a => name :: names a
  end.

(** [m[name]], for a name of the pattern: the text of the group, [None]
    when it took no part in the match. *)
Definition item (m : groups) (name : string) : value :=
  match group m name with
  | Some v => VStr v
  | None => VNone
  end.

(** [m.groupdict()]. *)
Definition groupdict (r : regex) (m : groups) : list (string * value) :=
  map (fun name => (name, item m name)) (names r).

Fixpoint all_in (p : cset) (s : string) : bool :=
  match s with
  | EmptyString => true
  | String c t => cset_mem p c && all_in p t
  end.

(** Exact semantics: [sem r p g g'] when [r] can match exactly the text [p],
    turning the groups [g] into [g']. *)
Inductive sem : regex -> string -> groups -> groups -> Prop :=
| sem_eps g : sem Eps "" g g
| sem_lit c g : sem (Lit c) (String c "") g g
| sem_cls p c g : cset_mem p c = true -> sem (Cls p) (String c "") g g
| sem_cat a b p1 p2 g g1 g2 :
    sem a p1 g g1 -> sem b p2 g1 g2 -> sem (Cat a b) (p1 ++ p2) g g2
| sem_alt_l a b p g g' : sem a p g g' -> sem (Alt a b) p g g'
| sem_alt_r a b p g g' : sem b p g g' -> sem (Alt a b) p g g'
| sem_opt_some a p g g' : sem a p g g' -> sem (Opt a) p g g'
| sem_opt_none a g : sem (Opt a) "" g g
| sem_plus p c cs g :
    cset_mem p c = true -> all_in p cs = true ->
    sem (Plus p) (String c cs) g g
| sem_group name a p g g' :
    sem a p g g' -> sem (Group name a) p g ((name, p) :: g').


End Re.

Declare Scope re_scope.
Delimit Scope re_scope with re.
Bind Scope re_scope with Re.regex.
Infix ">>" := Re.Cat (at level 60, right associativity) : re_scope.
Infix "<|>" := Re.Alt (at level 70, right associativity) : re_scope.

(** ** [datetime] and [int] *)

Record datetime := mk_datetime
  { year : Z; month : Z; day : Z; hour : Z; minute : Z; second : Z }.

Definition is_leap (y : Z) : bool :=
  ((y mod 4 =? 0) && negb (y mod 100 =? 0) || (y mod 400 =? 0))%Z.

Definition days_in_month (y m : Z) : Z :=
  (if m =? 2 then (if is_leap y then 29 else 28)
   else if (m =? 4) || (m =? 6) || (m =? 9) || (m =? 11) then 30
   else 31)%Z.

(** [datetime(y, m, d, h, mi, s)]: a [ValueError] outside the calendar. *)
Definition datetime_new (y m d h mi s : Z) : result datetime :=
  if ((1 <=? y) && (y <=? 9999) && (1 <=? m) && (m <=? 12)
      && (1 <=? d) && (d <=? days_in_month y m)
      && (0 <=? h) && (h <=? 23) && (0 <=? mi) && (mi <=? 59)
      && (0 <=? s) && (s <=? 59))%Z
  then Ok (mk_datetime y m d h mi s)
  else Raise ValueError.

Fixpoint digits_value (s : string) (acc : Z) : option Z :=
  match s with
  | EmptyString => Some acc
  | String c t =>
      if Re.is_digit c
      then digits_value t (10 * acc + (Z.of_N (Re.code c) - 48))%Z
      else None
  end.

(** [int(v)] on the values the program converts: a string of decimal
    digits is its number, any other string a [ValueError]. *)
Definition py_int (v : value) : result Z :=
  match v with
  | VInt z => Ok z
  | VNone => Raise TypeError
  | VStr EmptyString => Raise ValueError
  | VStr s =>
      match digits_value s 0 with
      | Some z => Ok z
      | None => Raise ValueError
      end
  end.

(** Truth value of [v] in a condition. *)
Definition truthy (v : value) : bool :=
  match v with
  | VNone => false
  | VStr s => negb (String.eqb s "")
  | VInt z => negb (z =? 0)%Z
  end.

(** ** The program *)

(** [class Regex(str, Enum)] *)
Module Regex.
Import Re.
Local Open Scope re_scope.

(* (?P<Year>(19|2\d)?\d{2}) *)
Definition Year : regex :=
  Group "Year" (Opt (lit "19" <|> Lit "2" >> Cls Digit) >> rep 2 (Cls Digit)).
(* (?P<Month>1[0-2]|0\d) *)
Definition Month : regex :=
  Group "Month" (Lit "1" >> Cls (Range "0" "2") <|> Lit "0" >> Cls Digit).
(* (?P<Day>[123]\d|0\d) *)
Definition Day : regex :=
  Group "Day" (Cls (OneOf "123") >> Cls Digit <|> Lit "0" >> Cls Digit).
(* (?P<Hour>[01]?\d|2[0-3]) *)
Definition Hour : regex :=
  Group "Hour" (Opt (Cls (OneOf "01")) >> Cls Digit
                <|> Lit "2" >> Cls (Range "0" "3")).
(* (?P<Minute>[0-5]\d) *)
Definition Minute : regex := Group "Minute" (Cls (Range "0" "5") >> Cls Digit).
(* (?P<Second>[0-5]\d) *)
Definition Second : regex := Group "Second" (Cls (Range "0" "5") >> Cls Digit).
(* {Hour}:{Minute}(:{Second})? *)
Definition Time : regex := Hour >> Lit ":" >> Minute >> Opt (Lit ":" >> Second).
(* (?P<Repeat>\d) times? *)
Definition Repeat : regex :=
  Group "Repeat" (Cls Digit) >> lit " time" >> Opt (Lit "s").
(* (?P<Kind>\w+( \(\w+\))?) *)
Definition Kind : regex :=
  Group "Kind" (Plus Word >> Opt (lit " (" >> Plus Word >> Lit ")")).

End Regex.

(** [class TimeStamp(NamedTuple)]: the fields hold whatever they are given. *)
Record TimeStamp := mk_TimeStamp
  { Year : value; Month : value; Day : value;
    Hour : value; Minute : value; Second : value }.

(** A keyword argument of [TimeStamp], called with the dictionary
    [groupdict()] as its keywords; all six names are groups of
    both timestamp patterns, so no default of the class is used. *)
Fixpoint kwarg (kw : list (string * value)) (name : string) : value :=
  match kw with
  | [] => VNone
  | (n, v) :: kw' => if String.eqb n name then v else kwarg kw' name
  end.

Definition TimeStamp_of (kw : list (string * value)) : TimeStamp :=
  mk_TimeStamp (kwarg kw "Year") (kwarg kw "Month") (kwarg kw "Day")
               (kwarg kw "Hour") (kwarg kw "Minute") (kwarg kw "Second").

(** [int(_) if _ else 0] *)
Definition int_or_0 (v : value) : result Z :=
  if truthy v then py_int v else Ok 0%Z.

(** [TimeStamp._datetime] *)
Definition _datetime (ts : TimeStamp) : result datetime :=
  y <- int_or_0 (Year ts) ;;
  m <- int_or_0 (Month ts) ;;
  d <- int_or_0 (Day ts) ;;
  h <- int_or_0 (Hour ts) ;;
  mi <- int_or_0 (Minute ts) ;;
  s <- int_or_0 (Second ts) ;;
  datetime_new y m d h mi s.

(** [class LogLine(NamedTuple)], as [parse_log_line] fills it. *)
Module LogLine.
Record t := mk
  { TimeStamp : datetime; Repeat : Z; Kind : value }.
End LogLine.

Local Open Scope re_scope.

(* ^{Regex.Year}-{Regex.Month}-{Regex.Day}\*{Regex.Time} *)
Definition regex_ymd : Re.regex :=
  Regex.Year >> Re.Lit "-" >> Regex.Month >> Re.Lit "-" >> Regex.Day
  >> Re.Lit "*" >> Regex.Time.

(* ^{Regex.Day}/{Regex.Month}/{Regex.Year} {Regex.Time} *)
Definition regex_dmy : Re.regex :=
  Regex.Day >> Re.Lit "/" >> Regex.Month >> Re.Lit "/" >> Regex.Year
  >> Re.Lit " " >> Regex.Time.

(** The loop of [parse_time_str] over the patterns in the order [rs]. *)
Fixpoint first_match (rs : list Re.regex) (time_str : string) : option TimeStamp :=
  match rs with
  | [] => None
  | regex :: rs' =>
      match Re.re_match regex time_str with
      | Some matched => Some (TimeStamp_of (Re.groupdict regex matched))
      | None => first_match rs' time_str
      end
  end.

(** [parse_time_str]; [acceptable_regex] is a set there, iterated in an
    order the source does not fix: [parse_time_str_order] shows that the
    order makes no difference. *)
Definition parse_time_str (time_str : string) : option TimeStamp :=
  first_match [regex_ymd; regex_dmy] time_str.

(* ^.+ {Regex.Repeat} {Regex.Kind} *)
Definition regex_line : Re.regex :=
  Re.Plus Re.AnyChar >> Re.Lit " " >> Regex.Repeat >> Re.Lit " " >> Regex.Kind.

(** [matched[name]] where [matched] may be [None]. *)
Definition subscript (matched : option Re.groups) (name : string) : result value :=
  match matched with
  | Some m => Ok (Re.item m name)
  | None => Raise TypeError
  end.

(** [parse_log_line]: the arguments of [LogLine(...)] are evaluated from
    left to right. *)
Definition parse_log_line (line : string) : result (option LogLine.t) :=
  match parse_time_str line with
  | Some timestamp =>
      let matched := Re.re_match regex_line line in
      dt <- _datetime timestamp ;;
      r <- subscript matched "Repeat" ;;
      n <- py_int r ;;
      k <- subscript matched "Kind" ;;
      Ok (Some (LogLine.mk dt n k))
  | None => Ok None
  end.

Local Close Scope re_scope.

(** ** The part of pandas that the program uses *)

Inductive cell :=
| CStr (s : string)
| CInt (z : Z)
| CTime (t : datetime)
| CNaN.

(** A frame: the length of its index and its columns, by label, in order.
    Labels are distinct, as [read_csv] makes them. *)
Record DataFrame := mk_DataFrame
  { index : nat; columns : list (string * list cell) }.

Fixpoint lookup {V} (cols : list (string * V)) (label : string) : option V :=
  match cols with
  | [] => None
  | (l, v) :: cols' => if String.eqb l label then Some v else lookup cols' label
  end.

Definition has_label {V} (cols : list (string * V)) (label : string) : bool :=
  match lookup cols label with Some _ => true | None => false end.

(** [df.drop(columns=labels)]: a [KeyError] on a label that is no column. *)
Definition drop (labels : list string) (df : DataFrame) : result DataFrame :=
  if forallb (has_label (columns df)) labels
  then Ok (mk_DataFrame (index df)
             (filter (fun c => negb (existsb (String.eqb (fst c)) labels))
                     (columns df)))
  else Raise KeyError.

(** [df.rename(columns=mapping)]: labels outside the mapping stay. *)
Definition rename (mapping : list (string * string)) (df : DataFrame) : DataFrame :=
  mk_DataFrame (index df)
    (map (fun c => match lookup mapping (fst c) with
                   | Some l => (l, snd c)
                   | None => c
                   end) (columns df)).

(** [df.label] *)
Definition getattr (df : DataFrame) (label : string) : result (list cell) :=
  match lookup (columns df) label with
  | Some v => Ok v
  | None => Raise AttributeError
  end.

Fixpoint replace_column (cols : list (string * list cell)) (label : string)
         (v : list cell) : list (string * list cell) :=
  match cols with
  | [] => []
  | (l, w) :: cols' =>
      if String.eqb l label then (l, v) :: cols'
      else (l, w) :: replace_column cols' label v
  end.

(** [df[label] = v]: in place for a column that exists, a new last column
    otherwise. *)
Definition setitem (df : DataFrame) (label : string) (v : list cell) : DataFrame :=
  mk_DataFrame (index df)
    (if has_label (columns df) label
     then replace_column (columns df) label v
     else columns df ++ [(label, v)]).

(** [df[label] = scalar]: the scalar on every row. *)
Definition setitem_scalar (df : DataFrame) (label : string) (c : cell) : DataFrame :=
  setitem df label (repeat c (index df)).

(** The [n] decimal digits at the front of [s], and what follows them. *)
Fixpoint read_digits (n : nat) (s : string) (acc : Z) : option (Z * string) :=
  match n with
  | O => Some (acc, s)
  | S n' =>
      match s with
      | String c t =>
          if Re.is_digit c
          then read_digits n' t (10 * acc + (Z.of_N (Re.code c) - 48))%Z
          else None
      | EmptyString => None
      end
  end.

Definition expect (c : ascii) (s : string) : option string :=
  match s with
  | String x t => if Ascii.eqb x c then Some t else None
  | EmptyString => None
  end.

Definition obind {A B} (m : option A) (f : A -> option B) : option B :=
  match m with Some a => f a | None => None end.

(** [to_datetime] on one value, for the ISO 8601 texts
    [YYYY-MM-DDTHH:MM:SS] (or with a space for the [T]) of a health export;
    an instant stays as it is.  pandas reads more formats than these: any
    other value is outside this model and is an error here. *)
Definition to_datetime1 (c : cell) : result cell :=
  match c with
  | CTime t => Ok (CTime t)
  | CStr s =>
      match
        obind (read_digits 4 s 0) (fun '(y, s) =>
        obind (expect "-" s) (fun s =>
        obind (read_digits 2 s 0) (fun '(m, s) =>
        obind (expect "-" s) (fun s =>
        obind (read_digits 2 s 0) (fun '(d, s) =>
        obind (match expect "T" s with Some s' => Some s' | None => expect " " s end)
              (fun s =>
        obind (read_digits 2 s 0) (fun '(h, s) =>
        obind (expect ":" s) (fun s =>
        obind (read_digits 2 s 0) (fun '(mi, s) =>
        obind (expect ":" s) (fun s =>
        obind (read_digits 2 s 0) (fun '(sec, s) =>
        match s with
        | EmptyString => Some (y, m, d, h, mi, sec)
        | _ => None
        end)))))))))))
      with
      | Some (y, m, d, h, mi, sec) =>
          t <- datetime_new y m d h mi sec ;; Ok (CTime t)
      | None => Raise ValueError
      end
  | _ => Raise TypeError
  end.

(** [to_datetime] on a column. *)
Fixpoint to_datetime (col : list cell) : result (list cell) :=
  match col with
  | [] => Ok []
  | c :: col' =>
      t <- to_datetime1 c ;;
      ts <- to_datetime col' ;;
      Ok (t :: ts)
  end.

(** [df.resample(rule, on=label)]: the grouping pandas is asked for. *)
Record Resampler := mk_Resampler
  { obj : DataFrame; rule : string; on : string }.

Definition is_time (c : cell) : bool :=
  match c with CTime _ => true | _ => false end.

Definition resample (df : DataFrame) (rule on : string) : result Resampler :=
  match lookup (columns df) on with
  | None => Raise KeyError
  | Some col =>
      if forallb is_time col then Ok (mk_Resampler df rule on)
      else Raise TypeError
  end.

(** ** The readers and the aggregator *)

Section Readers.
(** [read_csv(fp, sep)]: what pandas makes of the file at [fp]. *)
Variable read_csv : string -> ascii -> result DataFrame.

(** [read_activity_whealth] *)
Definition read_activity_whealth (fp : string) : result DataFrame :=
  df <- read_csv fp ";" ;;
  df <- drop ["unit"; "name"; "source"] df ;;
  let df := rename [("startdate", "TimeStamp"); ("value", "Repeat")] df in
  col <- getattr df "TimeStamp" ;;
  ts <- to_datetime col ;;
  let df := setitem df "TimeStamp" ts in
  let df := setitem_scalar df "Kind" (CStr "Unknown") in
  Ok df.
End Readers.

Definition available_offset : list string := ["W"; "SM"; "M"; "Q"; "A"; "H"].

(** [x in xs] on strings. *)
Definition py_in (x : string) (xs : list string) : bool :=
  existsb (String.eqb x) xs.

(** [group_data]; falling off the end of the function returns [None]. *)
Definition group_data (df : DataFrame) (offset_alias : string)
  : result (option Resampler) :=
  if py_in offset_alias available_offset
  then r <- resample df offset_alias "TimeStamp" ;; Ok (Some r)
  else Ok None.

(** The six calendar periods and the offset aliases pandas gives them. *)
Module Period.
Inductive t := Week | SemiMonth | Month | Quarter | Year | Hour.
Definition all : list t := [Week; SemiMonth; Month; Quarter; Year; Hour].
End Period.

Definition alias (g : Period.t) : string :=
  match g with
  | Period.Week => "W"
  | Period.SemiMonth => "SM"
  | Period.Month => "M"
  | Period.Quarter => "Q"
  | Period.Year => "A"
  | Period.Hour => "H"
  end.

(** ** Numbers: [int] and [float] *)

Inductive number :=
| NInt (z : Z)
| NFloat (f : float).

(** [float(z)], exact for [|z| < 2^53]. *)
Definition py_float (z : Z) : float :=
  if (z <? 0)%Z then PrimFloat.opp (PrimFloat.of_uint63 (Uint63.of_Z (- z)))
  else PrimFloat.of_uint63 (Uint63.of_Z z).

(** [a / b] on two [int]s. *)
Definition truediv (a b : Z) : float := PrimFloat.div (py_float a) (py_float b).

(** [m * 2^e] rounded to the nearest integer, a tie to the even one. *)
Definition round_half_even (m : positive) (e : Z) : Z :=
  (if 0 <=? e then Zpos m * 2 ^ e
   else
     let d := 2 ^ (- e) in
     let q := Zpos m / d in
     let r := Zpos m mod d in
     if 2 * r <? d then q
     else if d <? 2 * r then q + 1
     else if Z.even q then q else q + 1)%Z.

(** [round(x)]: the nearest [int] to the exact value of [x]. *)
Definition py_round (x : float) : result Z :=
  match Prim2SF x with
  | S754_zero _ => Ok 0%Z
  | S754_finite s m e =>
      Ok (if s then - round_half_even m e else round_half_even m e)%Z
  | S754_infinity _ => Raise OverflowError
  | S754_nan => Raise ValueError
  end.

(** [round(x, 1)]: the exact value of [x] is rounded to one decimal, a tie
    to the even digit, and the nearest [float] to that decimal is returned
    (exact for [|x| < 2^49]). *)
Definition py_round1 (x : float) : float :=
  match Prim2SF x with
  | S754_finite s m e =>
      if (0 <=? e)%Z then x
      else
        let f := PrimFloat.div (py_float (round_half_even (m * 10) e)) (py_float 10) in
        if s then PrimFloat.opp f else f
  | _ => x
  end.

(** The function [fn] that [time_function] returns, for [data_size] rows;
    [x] has the attributes [hour] and [minute]. *)
Definition fn (data_size : nat) (x : datetime) : result number :=
  if (data_size <=? 50)%nat then
    step <- py_round (truediv (minute x) 60) ;;
    Ok (NInt (hour x + step))
  else if (data_size <=? 100)%nat then
    r <- py_round (PrimFloat.mul (truediv (minute x) 60) (py_float 2)) ;;
    Ok (NFloat (PrimFloat.add (py_float (hour x)) (truediv r 2)))
  else if (data_size <=? 200)%nat then
    r <- py_round (PrimFloat.mul (truediv (minute x) 60) (py_float 4)) ;;
    Ok (NFloat (PrimFloat.add (py_float (hour x)) (truediv r 4)))
  else
    let step := py_round1 (truediv (minute x) 60) in
    Ok (NFloat (PrimFloat.add (py_float (hour x)) step)).

(** [time_function] *)
Definition time_function (df : DataFrame) : datetime -> result number :=
  let data_size := index df in
  fn data_size.

(** ** A reader for plain files

    [read_csv] on a file system [fs] of plain delimited text: the first
    line names the columns, blank lines are skipped, a short row is filled
    with NaN, a long one is a [ParserError]; a column of whole numbers is
    read as [int]s, an empty field as NaN, anything else stays text. *)

Fixpoint split_on (sep : ascii) (s : string) : list string :=
  match s with
  | EmptyString => [EmptyString]
  | String c t =>
      if Ascii.eqb c sep then EmptyString :: split_on sep t
      else
        match split_on sep t with
        | f :: fs => String c f :: fs
        | [] => [String c EmptyString]
        end
  end.

Definition is_blank (s : string) : bool := String.eqb s "".

Definition is_whole_number (s : string) : bool :=
  negb (is_blank s) && Re.all_in Re.Digit s.

Definition read_field (as_int : bool) (s : string) : cell :=
  if is_blank s then CNaN
  else if as_int then
    match digits_value s 0 with Some z => CInt z | None => CStr s end
  else CStr s.

Definition read_column (fields : list string) : list cell :=
  map (read_field (forallb (fun f => is_blank f || is_whole_number f) fields)) fields.

Definition read_csv_plain (fs : list (string * string)) (fp : string) (sep : ascii)
  : result DataFrame :=
  match lookup fs fp with
  | None => Raise OSError
  | Some text =>
      match filter (fun l => negb (is_blank l)) (split_on "010" text) with
      | [] => Raise ParserError
      | header :: lines =>
          let labels := split_on sep header in
          let rows := map (split_on sep) lines in
          if forallb (fun r => (List.length r <=? List.length labels)%nat) rows then
            Ok (mk_DataFrame (List.length rows)
                  (map (fun '(i, label) =>
                          (label, read_column (map (fun r => nth i r "") rows)))
                       (combine (seq 0 (List.length labels)) labels)))
          else Raise ParserError
      end
  end.

(** The rows of a frame, each a list of labelled values. *)
Definition records (df : DataFrame) : list (list (string * cell)) :=
  map (fun i => map (fun '(label, col) => (label, nth i col CNaN)) (columns df))
      (seq 0 (index df)).

(** ** The texts of the two timestamp grammars *)

Inductive year_text : string -> Prop :=
| year_19 c d :
    Re.cset_mem Re.Digit c = true -> Re.cset_mem Re.Digit d = true ->
    year_text (String "1" (String "9" (String c (String d ""))))
| year_2 b c d :
    Re.cset_mem Re.Digit b = true -> Re.cset_mem Re.Digit c = true ->
    Re.cset_mem Re.Digit d = true ->
    year_text (String "2" (String b (String c (String d ""))))
| year_short a b :
    Re.cset_mem Re.Digit a = true -> Re.cset_mem Re.Digit b = true ->
    year_text (String a (String b "")).

Inductive month_text : string -> Prop :=
| month_1 b :
    Re.cset_mem (Re.Range "0" "2") b = true -> month_text (String "1" (String b ""))
| month_0 b :
    Re.cset_mem Re.Digit b = true -> month_text (String "0" (String b "")).

Inductive day_text : string -> Prop :=
| day_123 a b :
    Re.cset_mem (Re.OneOf "123") a = true -> Re.cset_mem Re.Digit b = true ->
    day_text (String a (String b ""))
| day_0 b :
    Re.cset_mem Re.Digit b = true -> day_text (String "0" (String b "")).

Inductive hour_text : string -> Prop :=
| hour_01 a b :
    Re.cset_mem (Re.OneOf "01") a = true -> Re.cset_mem Re.Digit b = true ->
    hour_text (String a (String b ""))
| hour_one a :
    Re.cset_mem Re.Digit a = true -> hour_text (String a "")
| hour_2 b :
    Re.cset_mem (Re.Range "0" "3") b = true -> hour_text (String "2" (String b "")).

Inductive sixty_text : string -> Prop :=
| sixty a b :
    Re.cset_mem (Re.Range "0" "5") a = true -> Re.cset_mem Re.Digit b = true ->
    sixty_text (String a (String b "")).

Definition opt_text (P : string -> Prop) (se : option string) : Prop :=
  match se with Some x => P x | None => True end.

Record fields_ok (y mo d h mi : string) (se : option string) : Prop :=
  { ok_year : year_text y; ok_month : month_text mo; ok_day : day_text d;
    ok_hour : hour_text h; ok_minute : sixty_text mi;
    ok_second : opt_text sixty_text se }.

Definition time_suffix (se : option string) : string :=
  match se with Some x => ":" ++ x | None => "" end.

Definition opt_value (se : option string) : value :=
  match se with Some x => VStr x | None => VNone end.

Definition time_groups (h mi : string) (se : option string) (g : Re.groups)
  : Re.groups :=
  match se with
  | Some x => ("Second", x) :: ("Minute", mi) :: ("Hour", h) :: g
  | None => ("Minute", mi) :: ("Hour", h) :: g
  end.

(** [YYYY-MM-DD*HH:MM[:SS]] and [DD/MM/YYYY HH:MM[:SS]]. *)
Definition text_ymd (y mo d h mi : string) (se : option string) : string :=
  y ++ "-" ++ mo ++ "-" ++ d ++ "*" ++ h ++ ":" ++ mi ++ time_suffix se.

Definition text_dmy (y mo d h mi : string) (se : option string) : string :=
  d ++ "/" ++ mo ++ "/" ++ y ++ " " ++ h ++ ":" ++ mi ++ time_suffix se.

(** One turn of the loop of [parse_time_str]. *)
Definition stamp (r : Re.regex) (s : string) : option TimeStamp :=
  option_map (fun m => TimeStamp_of (Re.groupdict r m)) (Re.re_match r s).

(** ** Definitions that the statements below use *)

(** A decimal numeral: one digit or more. *)
Definition numeral (s : string) : Prop :=
  s <> "" /\ Re.all_in Re.Digit s = true.

(** The month texts the grammars take: [0] and a digit, or [1] and one of
    [0], [1], [2]. *)
Definition month_texts : list string :=
  ["00"; "01"; "02"; "03"; "04"; "05"; "06"; "07"; "08"; "09"; "10"; "11"; "12"].

(** The four precisions, as the table of the specification words them. *)
Definition whole_hour (x : datetime) : result number :=
  r <- py_round (truediv (minute x) 60) ;;
  Ok (NInt (hour x + r)).

Definition half_hour (x : datetime) : result number :=
  r <- py_round (PrimFloat.mul (truediv (minute x) 60) (py_float 2)) ;;
  Ok (NFloat (PrimFloat.add (py_float (hour x)) (truediv r 2))).

Definition quarter_hour (x : datetime) : result number :=
  r <- py_round (PrimFloat.mul (truediv (minute x) 60) (py_float 4)) ;;
  Ok (NFloat (PrimFloat.add (py_float (hour x)) (truediv r 4))).

Definition tenth_hour (x : datetime) : result number :=
  Ok (NFloat (PrimFloat.add (py_float (hour x))
                            (py_round1 (truediv (minute x) 60)))).

Definition minutes : list Z := map Z.of_nat (seq 0 60).

Definition rounds_to (f : Z -> float) (r : Z -> Z) (m : Z) : bool :=
  match py_round (f m) with
  | Ok z => (z =? r m)%Z
  | Raise _ => false
  end.

(** The record of a row of the normalized frame. *)
Definition log_record (t v : cell) : list (string * cell) :=
  [("TimeStamp", t); ("Repeat", v); ("Kind", CStr "Unknown")].

(** The label a column has after [rename(columns=mapping)]. *)
Definition renamed (mapping : list (string * string)) (l : string) : string :=
  match lookup mapping l with Some l' => l' | None => l end.

(** A health export of one row. *)
Definition export_csv : string :=
  "startdate;value;unit;name;source" ++ String "010"
  ("2021-05-01T14:30:00;3;count;Sex;Manual Entry" ++ String "010" "").

(** ** More of the program: the log reader and the choice of reader *)

(** [f.readlines()] on the text of a file: the lines, each with the
    newline that ends it (the last line may have none). *)
Fixpoint readlines (text : string) : list string :=
  match text with
  | EmptyString => []
  | String c t =>
      if Ascii.eqb c "010" then String c "" :: readlines t
      else
        match readlines t with
        | [] => [String c ""]
        | l :: ls => String c l :: ls
        end
  end.

(** [l[header:]] for an [int] [header]; a negative one counts from the end. *)
Definition slice_from {A} (header : Z) (l : list A) : list A :=
  if (header <? 0)%Z
  then skipn (List.length l - Z.to_nat (- header)) l
  else skipn (Z.to_nat header) l.

(** [list(map(parse_log_line, lines))]: the first exception ends it. *)
Fixpoint map_parse_log_line (lines : list string)
  : result (list (option LogLine.t)) :=
  match lines with
  | [] => Ok []
  | l :: ls =>
      r <- parse_log_line l ;;
      rs <- map_parse_log_line ls ;;
      Ok (r :: rs)
  end.

(** [file.rsplit('.', 1)[-1]]: what follows the last dot, or all of [file]. *)
Fixpoint has_dot (s : string) : bool :=
  match s with
  | EmptyString => false
  | String c t => Ascii.eqb c "." || has_dot t
  end.

Fixpoint after_last_dot (s : string) : string :=
  match s with
  | EmptyString => EmptyString
  | String c t =>
      if has_dot t then after_last_dot t
      else if Ascii.eqb c "." then t
      else s
  end.

Section LogReader.
(** [open(fp, 'r')] and the text read from it, newlines translated. *)
Variable open_text : string -> result string.
(** [DataFrame(rows)], pandas' frame of a list of [LogLine]s and [None]s. *)
Variable DataFrame_of : list (option LogLine.t) -> result DataFrame.

(** [read_activity_log] *)
Definition read_activity_log (fp : string) (header : Z) : result DataFrame :=
  text <- open_text fp ;;
  rows <- map_parse_log_line (slice_from header (readlines text)) ;;
  df <- DataFrame_of rows ;;
  col <- getattr df "TimeStamp" ;;
  ts <- to_datetime col ;;
  Ok (setitem df "TimeStamp" ts).

Variable read_csv : string -> ascii -> result DataFrame.

(** The data set that the script reads for [--file file]. *)
Definition log_lines (file : string) : result DataFrame :=
  if String.eqb (after_last_dot file) "csv"
  then read_activity_whealth read_csv file
  else read_activity_log file 1.

End LogReader.

(** ** Definitions that the further statements use *)

(** The seconds that [rest] begins with: a colon, a digit up to 5 and a
    digit, as [(:(?P<Second>[0-5]\d))?] takes them. *)
Definition seconds_after (rest : string) : option string :=
  match rest with
  | String c (String a (String b _)) =>
      if Ascii.eqb c ":" && Re.cset_mem (Re.Range "0" "5") a
         && Re.cset_mem Re.Digit b
      then Some (String a (String b ""))
      else None
  | _ => None
  end.

(** The number a decimal digit stands for. *)
Definition digit_of (c : ascii) : Z := (Z.of_N (Re.code c) - 48)%Z.

(** The texts [\w+( \(\w+\))?] matches in full: a word, or a word and a
    word in brackets. *)
Definition word_text (w : string) : Prop :=
  w <> "" /\ Re.all_in Re.Word w = true.

Inductive kind_text : string -> Prop :=
| kind_plain w : word_text w -> kind_text w
| kind_qualified w q :
    word_text w -> word_text q -> kind_text (w ++ " (" ++ q ++ ")").

(** The text of [lines], each ended by a newline. *)
Fixpoint header_text (lines : list string) : string :=
  match lines with
  | [] => EmptyString
  | l :: ls => l ++ String "010" (header_text ls)
  end.

Fixpoint has_newline (s : string) : bool :=
  match s with
  | EmptyString => false
  | String c t => Ascii.eqb c "010" || has_newline t
  end.

(** The bucket of a minute at the three finer precisions, counted in
    halves, quarters and tenths of an hour. *)
Definition half_index (m : Z) : Z :=
  (if m <=? 15 then 0 else if m <=? 44 then 1 else 2)%Z.

Definition quarter_index (m : Z) : Z :=
  (if m <=? 7 then 0 else if m <=? 22 then 1 else if m <=? 37 then 2
   else if m <=? 52 then 3 else 4)%Z.

Definition tenth_index (m : Z) : Z :=
  (if m <=? 2 then 0 else if m <=? 9 then 1 else if m <=? 15 then 2
   else if m <=? 21 then 3 else if m <=? 26 then 4 else if m <=? 32 then 5
   else if m <=? 38 then 6 else if m <=? 44 then 7 else if m <=? 51 then 8
   else if m <=? 57 then 9 else 10)%Z.

Definition hours : list Z := map Z.of_nat (seq 0 24).

(** A frame is well formed when every column is as long as the index. *)
Definition well_formed (df : DataFrame) : Prop :=
  Forall (fun c => List.length (snd c) = index df) (columns df).

(** * Properties *)

(** ** Strings *)

Lemma append_nil_r (s : string) : s ++ "" = s.
Proof. induction s as [|c s IH]; simpl; [reflexivity | now rewrite IH]. Qed.

Lemma append_assoc (a b c : string) : (a ++ b) ++ c = a ++ (b ++ c).
Proof. induction a as [|x a IH]; simpl; [reflexivity | now rewrite IH]. Qed.

(** ** The matcher is sound for the exact semantics *)

Lemma plus_loop_sound A (p : Re.cset) (x : A) :
  forall s (k : string -> string -> option A),
  Re.plus_loop p s k = Some x ->
  exists c cs s', s = String c cs ++ s' /\ Re.cset_mem p c = true
                  /\ Re.all_in p cs = true /\ k (String c cs) s' = Some x.
Proof.
  induction s as [|c s IH]; intros k; simpl; [discriminate|].
  destruct (Re.cset_mem p c) eqn:Hc; [|discriminate].
  destruct (Re.plus_loop p s _) as [y|] eqn:Hl.
  - intros [= ->]. apply IH in Hl.
    destruct Hl as (c' & cs & s' & -> & Hc' & Hall & Hk).
    exists c, (String c' cs), s'. simpl. rewrite Hc', Hall. auto.
  - intros Hk. exists c, "", s. simpl. auto.
Qed.

Lemma exec_sound A (r : Re.regex) :
  forall s g (k : string -> string -> Re.groups -> option A) (x : A),
  Re.exec r s g k = Some x ->
  exists w s' g', s = w ++ s' /\ Re.sem r w g g' /\ k w s' g' = Some x.
Proof.
  induction r as [|c|q|a IHa b IHb|a IHa b IHb|a IHa|q|name a IHa];
    intros s g k x H; simpl in H.
  - exists "", s, g. repeat split; [constructor | assumption].
  - destruct s as [|y s]; [discriminate|].
    destruct (Ascii.eqb y c) eqn:E; [|discriminate].
    apply Ascii.eqb_eq in E. subst y.
    exists (String c ""), s, g. repeat split; [constructor | assumption].
  - destruct s as [|y s]; [discriminate|].
    destruct (Re.cset_mem q y) eqn:E; [|discriminate].
    exists (String y ""), s, g. repeat split; [now constructor | assumption].
  - apply IHa in H. destruct H as (w1 & s1 & g1 & -> & Ha & H).
    apply IHb in H. destruct H as (w2 & s2 & g2 & -> & Hb & H).
    exists (w1 ++ w2), s2, g2. rewrite append_assoc.
    repeat split; [econstructor; eassumption | assumption].
  - destruct (Re.exec a s g k) as [y|] eqn:E.
    + injection H as ->. apply IHa in E. destruct E as (w & s' & g' & -> & Ha & E).
      exists w, s', g'. repeat split; [now apply Re.sem_alt_l | assumption].
    + apply IHb in H. destruct H as (w & s' & g' & -> & Hb & H).
      exists w, s', g'. repeat split; [now apply Re.sem_alt_r | assumption].
  - destruct (Re.exec a s g k) as [y|] eqn:E.
    + injection H as ->. apply IHa in E. destruct E as (w & s' & g' & -> & Ha & E).
      exists w, s', g'. repeat split; [now apply Re.sem_opt_some | assumption].
    + exists "", s, g. repeat split; [apply Re.sem_opt_none | assumption].
  - apply plus_loop_sound in H. destruct H as (c & cs & s' & -> & Hc & Hall & H).
    exists (String c cs), s', g. repeat split; [now constructor | assumption].
  - apply IHa in H. destruct H as (w & s' & g' & -> & Ha & H).
    exists w, s', ((name, w) :: g'). repeat split; [now constructor | assumption].
Qed.

(** What [re.match] returns is an exact match of a prefix. *)
Lemma re_match_sound (r : Re.regex) (s : string) (m : Re.groups) :
  Re.re_match r s = Some m ->
  exists w s', s = w ++ s' /\ Re.sem r w [] m.
Proof.
  intros H. apply exec_sound in H. destruct H as (w & s' & g' & -> & Hsem & [= ->]).
  now exists w, s'.
Qed.

(** ** What a match of the timestamp patterns looks like *)

Ltac inv H := inversion H; subst; clear H.

Ltac sem_inv :=
  repeat match goal with
  | H : Re.sem Re.Eps _ _ _ |- _ => inv H
  | H : Re.sem (Re.Lit _) _ _ _ |- _ => inv H
  | H : Re.sem (Re.Cls _) _ _ _ |- _ => inv H
  | H : Re.sem (Re.Cat _ _) _ _ _ |- _ => inv H
  | H : Re.sem (Re.Alt _ _) _ _ _ |- _ => inv H
  | H : Re.sem (Re.Opt _) _ _ _ |- _ => inv H
  | H : Re.sem (Re.Plus _) _ _ _ |- _ => inv H
  | H : Re.sem (Re.Group _ _) _ _ _ |- _ => inv H
  end.

Ltac field_inv H := cbv in H; sem_inv; simpl; split; try reflexivity; constructor; assumption.

Lemma sem_Year w g g' :
  Re.sem Regex.Year w g g' -> year_text w /\ g' = ("Year", w) :: g.
Proof. intros H. field_inv H. Qed.
Lemma sem_Month w g g' :
  Re.sem Regex.Month w g g' -> month_text w /\ g' = ("Month", w) :: g.
Proof. intros H. field_inv H. Qed.
Lemma sem_Day w g g' :
  Re.sem Regex.Day w g g' -> day_text w /\ g' = ("Day", w) :: g.
Proof. intros H. field_inv H. Qed.
Lemma sem_Hour w g g' :
  Re.sem Regex.Hour w g g' -> hour_text w /\ g' = ("Hour", w) :: g.
Proof. intros H. field_inv H. Qed.
Lemma sem_Minute w g g' :
  Re.sem Regex.Minute w g g' -> sixty_text w /\ g' = ("Minute", w) :: g.
Proof. intros H. field_inv H. Qed.
Lemma sem_Second w g g' :
  Re.sem Regex.Second w g g' -> sixty_text w /\ g' = ("Second", w) :: g.
Proof. intros H. field_inv H. Qed.

Ltac fields :=
  repeat match goal with
  | H : Re.sem Regex.Year _ _ _ |- _ => apply sem_Year in H; destruct H as [? ->]
  | H : Re.sem Regex.Month _ _ _ |- _ => apply sem_Month in H; destruct H as [? ->]
  | H : Re.sem Regex.Day _ _ _ |- _ => apply sem_Day in H; destruct H as [? ->]
  | H : Re.sem Regex.Hour _ _ _ |- _ => apply sem_Hour in H; destruct H as [? ->]
  | H : Re.sem Regex.Minute _ _ _ |- _ => apply sem_Minute in H; destruct H as [? ->]
  | H : Re.sem Regex.Second _ _ _ |- _ => apply sem_Second in H; destruct H as [? ->]
  end.

Lemma sem_Time w g g' :
  Re.sem Regex.Time w g g' ->
  exists h mi se, hour_text h /\ sixty_text mi /\ opt_text sixty_text se
    /\ w = h ++ ":" ++ mi ++ time_suffix se
    /\ g' = time_groups h mi se g.
Proof.
  intros H. unfold Regex.Time in H. sem_inv; fields.
  - match goal with
    | H1 : hour_text ?h, H2 : sixty_text ?mi, H3 : sixty_text ?x |- context [ ?mi ++ _ ++ ?x ] =>
        exists h, mi, (Some x)
    end. simpl. auto.
  - match goal with
    | H1 : hour_text ?h, H2 : sixty_text ?mi |- _ => exists h, mi, None
    end. simpl. auto.
Qed.

Lemma ymd_shape s ts :
  stamp regex_ymd s = Some ts ->
  exists y mo d h mi se rest,
    fields_ok y mo d h mi se /\ s = text_ymd y mo d h mi se ++ rest
    /\ ts = mk_TimeStamp (VStr y) (VStr mo) (VStr d) (VStr h) (VStr mi) (opt_value se).
Proof.
  unfold stamp. destruct (Re.re_match regex_ymd s) as [m|] eqn:E; [|discriminate].
  intros [= <-]. apply re_match_sound in E. destruct E as (w & rest & -> & H).
  unfold regex_ymd in H. sem_inv; fields.
  match goal with H : Re.sem Regex.Time _ _ _ |- _ =>
    apply sem_Time in H; destruct H as (h & mi & se & Hh & Hmi & Hse & -> & ->) end.
  match goal with
  | H1 : year_text ?y, H2 : month_text ?mo, H3 : day_text ?d |- _ =>
      exists y, mo, d, h, mi, se, rest
  end.
  split; [now constructor|]. split.
  - unfold text_ymd. simpl. reflexivity.
  - destruct se; reflexivity.
Qed.

Lemma dmy_shape s ts :
  stamp regex_dmy s = Some ts ->
  exists y mo d h mi se rest,
    fields_ok y mo d h mi se /\ s = text_dmy y mo d h mi se ++ rest
    /\ ts = mk_TimeStamp (VStr y) (VStr mo) (VStr d) (VStr h) (VStr mi) (opt_value se).
Proof.
  unfold stamp. destruct (Re.re_match regex_dmy s) as [m|] eqn:E; [|discriminate].
  intros [= <-]. apply re_match_sound in E. destruct E as (w & rest & -> & H).
  unfold regex_dmy in H. sem_inv; fields.
  match goal with H : Re.sem Regex.Time _ _ _ |- _ =>
    apply sem_Time in H; destruct H as (h & mi & se & Hh & Hmi & Hse & -> & ->) end.
  match goal with
  | H1 : year_text ?y, H2 : month_text ?mo, H3 : day_text ?d |- _ =>
      exists y, mo, d, h, mi, se, rest
  end.
  split; [now constructor|]. split.
  - unfold text_dmy. simpl. reflexivity.
  - destruct se; reflexivity.
Qed.

(** ** The matcher on a text of either grammar

    The matcher is run on a text whose fields are known to be of the right
    shape: a test on a known character is computed, a test that a
    hypothesis settles is rewritten, any other test is split in two. *)

Section Running.

#[local] Arguments Ascii.eqb !a !b.
#[local] Arguments Re.cset_mem p !c.

Ltac test_step :=
  match goal with
  | H : Re.cset_mem ?p ?c = true |- context [Re.cset_mem ?p ?c] => rewrite H
  | |- context [if Re.cset_mem ?p ?c then _ else _] => destruct (Re.cset_mem p c) eqn:?
  | |- context [if Ascii.eqb ?a ?b then _ else _] => destruct (Ascii.eqb a b) eqn:?
  end; cbn.

Ltac run := cbn; repeat test_step; try reflexivity.

Lemma ymd_complete y mo d h mi x rest :
  fields_ok y mo d h mi (Some x) ->
  stamp regex_ymd (text_ymd y mo d h mi (Some x) ++ rest)
  = Some (mk_TimeStamp (VStr y) (VStr mo) (VStr d) (VStr h) (VStr mi) (VStr x)).
Proof.
  intros [Hy Hmo Hd Hh Hmi Hx]. simpl in Hx.
  destruct Hy, Hmo, Hd, Hh, Hmi, Hx; unfold stamp, text_ymd, time_suffix.
  all: run.
Qed.

Lemma dmy_complete y mo d h mi x rest :
  fields_ok y mo d h mi (Some x) ->
  stamp regex_dmy (text_dmy y mo d h mi (Some x) ++ rest)
  = Some (mk_TimeStamp (VStr y) (VStr mo) (VStr d) (VStr h) (VStr mi) (VStr x)).
Proof.
  intros [Hy Hmo Hd Hh Hmi Hx]. simpl in Hx.
  destruct Hy, Hmo, Hd, Hh, Hmi, Hx; unfold stamp, text_dmy, time_suffix.
  all: run.
Qed.

(** With nothing after it, a text of either grammar is read back field
    by field, with or without seconds. *)
Lemma ymd_exact y mo d h mi se :
  fields_ok y mo d h mi se ->
  stamp regex_ymd (text_ymd y mo d h mi se)
  = Some (mk_TimeStamp (VStr y) (VStr mo) (VStr d) (VStr h) (VStr mi) (opt_value se)).
Proof.
  intros [Hy Hmo Hd Hh Hmi Hx]. destruct se as [x|]; simpl in Hx.
  - destruct Hy, Hmo, Hd, Hh, Hmi, Hx; unfold stamp, text_ymd, time_suffix.
    all: run.
  - destruct Hy, Hmo, Hd, Hh, Hmi; unfold stamp, text_ymd, time_suffix.
    all: run.
Qed.

Lemma dmy_exact y mo d h mi se :
  fields_ok y mo d h mi se ->
  stamp regex_dmy (text_dmy y mo d h mi se)
  = Some (mk_TimeStamp (VStr y) (VStr mo) (VStr d) (VStr h) (VStr mi) (opt_value se)).
Proof.
  intros [Hy Hmo Hd Hh Hmi Hx]. destruct se as [x|]; simpl in Hx.
  - destruct Hy, Hmo, Hd, Hh, Hmi, Hx; unfold stamp, text_dmy, time_suffix.
    all: run.
  - destruct Hy, Hmo, Hd, Hh, Hmi; unfold stamp, text_dmy, time_suffix.
    all: run.
Qed.

(** The two grammars share no text: the third character is [-] or a digit
    in one and [/] in the other. *)
Lemma ymd_not_dmy y mo d h mi se rest :
  fields_ok y mo d h mi se ->
  stamp regex_dmy (text_ymd y mo d h mi se ++ rest) = None.
Proof.
  intros [Hy Hmo Hd Hh Hmi Hx].
  destruct Hy, Hmo, Hd; unfold stamp, text_ymd.
  all: run.
Qed.

Lemma dmy_not_ymd y mo d h mi se rest :
  fields_ok y mo d h mi se ->
  stamp regex_ymd (text_dmy y mo d h mi se ++ rest) = None.
Proof.
  intros [Hy Hmo Hd Hh Hmi Hx].
  destruct Hy, Hmo, Hd; unfold stamp, text_dmy.
  all: run.
Qed.

End Running.

(** ** [parse_time_str] *)

Lemma parse_time_str_unfold s :
  parse_time_str s
  = match stamp regex_ymd s with
    | Some ts => Some ts
    | None => stamp regex_dmy s
    end.
Proof.
  unfold parse_time_str, first_match, stamp.
  destruct (Re.re_match regex_ymd s); [reflexivity|].
  destruct (Re.re_match regex_dmy s); reflexivity.
Qed.

(** The set [acceptable_regex] can be iterated either way round. *)
Lemma parse_time_str_order s :
  first_match [regex_dmy; regex_ymd] s = parse_time_str s.
Proof.
  rewrite parse_time_str_unfold.
  assert (E : first_match [regex_dmy; regex_ymd] s
              = match stamp regex_dmy s with
                | Some ts => Some ts
                | None => stamp regex_ymd s
                end).
  { unfold first_match, stamp.
    destruct (Re.re_match regex_dmy s); [reflexivity|].
    destruct (Re.re_match regex_ymd s); reflexivity. }
  rewrite E. clear E.
  destruct (stamp regex_ymd s) as [ta|] eqn:Ea.
  - destruct (ymd_shape _ Ea) as (y & mo & d & h & mi & se & rest & Hok & -> & _).
    now rewrite (ymd_not_dmy rest Hok).
  - now destruct (stamp regex_dmy s).
Qed.

(** The text and the fields of any timestamp that is parsed. *)
Lemma parse_time_str_shape s ts :
  parse_time_str s = Some ts ->
  exists y mo d h mi se rest,
    fields_ok y mo d h mi se
    /\ (s = text_ymd y mo d h mi se ++ rest \/ s = text_dmy y mo d h mi se ++ rest)
    /\ ts = mk_TimeStamp (VStr y) (VStr mo) (VStr d) (VStr h) (VStr mi) (opt_value se).
Proof.
  rewrite parse_time_str_unfold.
  destruct (stamp regex_ymd s) as [ta|] eqn:Ea.
  - intros [= <-].
    destruct (ymd_shape _ Ea) as (y & mo & d & h & mi & se & rest & Hok & -> & ->).
    exists y, mo, d, h, mi, se, rest. auto.
  - intros Eb.
    destruct (dmy_shape _ Eb) as (y & mo & d & h & mi & se & rest & Hok & -> & ->).
    exists y, mo, d, h, mi, se, rest. auto.
Qed.

Lemma parse_time_str_ymd y mo d h mi x rest :
  fields_ok y mo d h mi (Some x) ->
  parse_time_str (text_ymd y mo d h mi (Some x) ++ rest)
  = Some (mk_TimeStamp (VStr y) (VStr mo) (VStr d) (VStr h) (VStr mi) (VStr x)).
Proof.
  intros Hok. rewrite parse_time_str_unfold. now rewrite (ymd_complete rest Hok).
Qed.

Lemma parse_time_str_dmy y mo d h mi x rest :
  fields_ok y mo d h mi (Some x) ->
  parse_time_str (text_dmy y mo d h mi (Some x) ++ rest)
  = Some (mk_TimeStamp (VStr y) (VStr mo) (VStr d) (VStr h) (VStr mi) (VStr x)).
Proof.
  intros Hok. rewrite parse_time_str_unfold.
  rewrite (dmy_not_ymd rest Hok). now rewrite (dmy_complete rest Hok).
Qed.

(** C10. [parse_time_str] reads a prefix of its input and ignores the
    rest: when a timestamp with its seconds is parsed from [s], the same
    timestamp is parsed from [s] followed by any text [t]. *)
Theorem parse_time_str_prefix (s t : string) (ts : TimeStamp) :
  parse_time_str s = Some ts ->
  Second ts <> VNone ->
  parse_time_str (s ++ t) = parse_time_str s.
Proof.
  intros H Hsec. rewrite H.
  destruct (parse_time_str_shape _ H)
    as (y & mo & d & h & mi & se & rest & Hok & Hs & ->).
  destruct se as [x|]; [|now elim Hsec].
  destruct Hs as [-> | ->]; rewrite append_assoc.
  - now apply parse_time_str_ymd.
  - now apply parse_time_str_dmy.
Qed.

Lemma parse_time_str_prefix_witness :
  parse_time_str "01/05/2021 14:30:05"
  = Some (mk_TimeStamp (VStr "2021") (VStr "05") (VStr "01")
                       (VStr "14") (VStr "30") (VStr "05"))
  /\ parse_time_str ("01/05/2021 14:30:05" ++ " 1 time kissing")
     = parse_time_str "01/05/2021 14:30:05".
Proof.
  split; [reflexivity|].
  apply (@parse_time_str_prefix "01/05/2021 14:30:05" " 1 time kissing"
           (mk_TimeStamp (VStr "2021") (VStr "05") (VStr "01")
                         (VStr "14") (VStr "30") (VStr "05"))).
  - reflexivity.
  - simpl. discriminate.
Defined.

(** ** Digits and [int] *)

Ltac by_cases c := destruct c as [[] [] [] [] [] [] [] []]; vm_compute; intros; try discriminate.

Lemma digit_value c :
  Re.cset_mem Re.Digit c = true -> (0 <= Z.of_N (Re.code c) - 48 <= 9)%Z.
Proof. by_cases c; split; discriminate. Qed.

Lemma digit_cases c :
  Re.cset_mem Re.Digit c = true ->
  In c ["0"; "1"; "2"; "3"; "4"; "5"; "6"; "7"; "8"; "9"]%char.
Proof. by_cases c; tauto. Qed.

Lemma range02_cases c :
  Re.cset_mem (Re.Range "0" "2") c = true -> In c ["0"; "1"; "2"]%char.
Proof. by_cases c; tauto. Qed.

Lemma range_digit hi c :
  In hi ["2"; "3"; "5"]%char ->
  Re.cset_mem (Re.Range "0" hi) c = true -> Re.cset_mem Re.Digit c = true.
Proof.
  intros [<- | [<- | [<- | []]]]; by_cases c; reflexivity.
Qed.

Lemma oneof_digit cs c :
  In cs ["123"; "01"] ->
  Re.cset_mem (Re.OneOf cs) c = true -> Re.cset_mem Re.Digit c = true.
Proof.
  intros [<- | [<- | []]]; by_cases c; reflexivity.
Qed.

Ltac numeral_tac :=
  split; [discriminate|]; cbn [Re.all_in];
  repeat match goal with
    | H : Re.cset_mem (Re.Range "0" ?hi) ?c = true |- _ =>
        apply (@range_digit hi c) in H; [|simpl; tauto]
    | H : Re.cset_mem (Re.OneOf ?cs) ?c = true |- _ =>
        apply (@oneof_digit cs c) in H; [|simpl; tauto]
    | H : Re.cset_mem Re.Digit ?c = true |- _ => rewrite H; clear H
    end; reflexivity.

Lemma year_numeral y : year_text y -> numeral y.
Proof. destruct 1; numeral_tac. Qed.
Lemma month_numeral m : month_text m -> numeral m.
Proof. destruct 1; numeral_tac. Qed.
Lemma day_numeral d : day_text d -> numeral d.
Proof. destruct 1; numeral_tac. Qed.
Lemma hour_numeral h : hour_text h -> numeral h.
Proof. destruct 1; numeral_tac. Qed.
Lemma sixty_numeral m : sixty_text m -> numeral m.
Proof. destruct 1; numeral_tac. Qed.

(** ** [TimeStamp._datetime] *)

Lemma bind_ok A B (m : result A) (f : A -> result B) (b : B) :
  bind m f = Ok b -> exists a, m = Ok a /\ f a = Ok b.
Proof. destruct m as [a|e]; simpl; [eauto | discriminate]. Qed.

Lemma datetime_new_ok y m d h mi s dt :
  datetime_new y m d h mi s = Ok dt ->
  dt = mk_datetime y m d h mi s
  /\ (1 <= y <= 9999 /\ 1 <= m <= 12 /\ 1 <= d <= days_in_month y m
      /\ 0 <= h <= 23 /\ 0 <= mi <= 59 /\ 0 <= s <= 59)%Z.
Proof.
  unfold datetime_new.
  destruct (_ && _)%bool eqn:E; [|discriminate].
  intros [= <-]. split; [reflexivity|].
  repeat (apply andb_prop in E; destruct E as [E ?]).
  repeat match goal with H : (_ <=? _)%Z = true |- _ => apply Z.leb_le in H end.
  lia.
Qed.

Lemma _datetime_fields ts dt :
  _datetime ts = Ok dt ->
  int_or_0 (Year ts) = Ok (year dt) /\ int_or_0 (Month ts) = Ok (month dt)
  /\ int_or_0 (Day ts) = Ok (day dt) /\ int_or_0 (Hour ts) = Ok (hour dt)
  /\ int_or_0 (Minute ts) = Ok (minute dt) /\ int_or_0 (Second ts) = Ok (second dt)
  /\ datetime_new (year dt) (month dt) (day dt) (hour dt) (minute dt) (second dt)
     = Ok dt.
Proof.
  unfold _datetime. intros H.
  repeat (apply bind_ok in H; destruct H as (? & ? & H)).
  destruct (datetime_new_ok _ _ _ _ _ _ H) as [-> _]. simpl.
  repeat split; assumption.
Qed.

(** ** The fields of a parsed timestamp *)

(** C3, as the code has it.  When the seconds are left out,
    [parse_time_str] returns a [TimeStamp] whose [Year], [Month], [Day],
    [Hour] and [Minute] are the matched numerals and whose [Second] is
    [None]; the default 0 is supplied by [_datetime], whose [datetime] has
    second 0. *)
Theorem seconds_omitted (s : string) (ts : TimeStamp) :
  parse_time_str s = Some ts ->
  Second ts = VNone ->
  (exists y mo d h mi,
      ts = mk_TimeStamp (VStr y) (VStr mo) (VStr d) (VStr h) (VStr mi) VNone
      /\ numeral y /\ numeral mo /\ numeral d /\ numeral h /\ numeral mi)
  /\ (forall dt, _datetime ts = Ok dt -> second dt = 0%Z).
Proof.
  intros H Hsec.
  destruct (parse_time_str_shape _ H)
    as (y & mo & d & h & mi & se & rest & [Hy Hmo Hd Hh Hmi Hse] & _ & ->).
  destruct se as [x|]; [discriminate|]. split.
  - exists y, mo, d, h, mi. split; [reflexivity|].
    pose proof (year_numeral Hy). pose proof (month_numeral Hmo).
    pose proof (day_numeral Hd). pose proof (hour_numeral Hh).
    pose proof (sixty_numeral Hmi). tauto.
  - intros dt Hdt. apply _datetime_fields in Hdt.
    destruct Hdt as (_ & _ & _ & _ & _ & Hs & _).
    simpl in Hs. now injection Hs.
Qed.

Lemma seconds_omitted_witness :
  exists ts,
    parse_time_str "2021-05-01*14:30" = Some ts
    /\ Second ts = VNone
    /\ _datetime ts = Ok (mk_datetime 2021 5 1 14 30 0)
    /\ (forall dt, _datetime ts = Ok dt -> second dt = 0%Z).
Proof.
  exists (mk_TimeStamp (VStr "2021") (VStr "05") (VStr "01") (VStr "14") (VStr "30") VNone).
  split; [reflexivity|]. split; [reflexivity|]. split; [reflexivity|].
  apply (@seconds_omitted "2021-05-01*14:30"); reflexivity.
Defined.

(** C3, as the claim has it, fails: the [Second] that [parse_time_str]
    returns for ["2021-05-01*14:30"] is [None], not 0. *)
Lemma seconds_omitted_not_zero :
  exists ts,
    parse_time_str "2021-05-01*14:30" = Some ts
    /\ Second ts = VNone /\ Second ts <> VInt 0.
Proof.
  eexists. split; [reflexivity|]. split; [reflexivity | discriminate].
Qed.

Lemma two_digit_year_value (s : string) (ts : TimeStamp) (y : string) (dt : datetime) :
  parse_time_str s = Some ts ->
  Year ts = VStr y ->
  String.length y = 2%nat ->
  _datetime ts = Ok dt ->
  py_int (VStr y) = Ok (year dt) /\ (1 <= year dt <= 99)%Z.
Proof.
  intros H Hy Hlen Hdt.
  destruct (parse_time_str_shape _ H)
    as (y' & mo & d & h & mi & se & rest & [Hy' _ _ _ _ _] & _ & ->).
  simpl in Hy. injection Hy as ->.
  apply _datetime_fields in Hdt. destruct Hdt as (Hyear & _ & _ & _ & _ & _ & Hnew).
  apply datetime_new_ok in Hnew. destruct Hnew as (_ & Hrange & _).
  destruct Hy' as [c d' Hc Hd | b c d' Hb Hc Hd | a b Ha Hb]; try discriminate.
  pose proof (digit_value _ Ha). pose proof (digit_value _ Hb).
  assert (E : py_int (VStr (String a (String b "")))
              = Ok (10 * (10 * 0 + (Z.of_N (Re.code a) - 48))
                    + (Z.of_N (Re.code b) - 48))%Z).
  { cbn [py_int digits_value].
    change (Re.is_digit a) with (Re.cset_mem Re.Digit a).
    change (Re.is_digit b) with (Re.cset_mem Re.Digit b).
    now rewrite Ha, Hb. }
  cbn [Year] in Hyear. change (int_or_0 ?v) with (py_int v) in Hyear.
  split; [assumption|].
  rewrite E in Hyear.
  assert (Hv : (10 * (10 * 0 + (Z.of_N (Re.code a) - 48))
                + (Z.of_N (Re.code b) - 48))%Z = year dt) by congruence.
  lia.
Qed.

(** C4, as the code has it.  A year written with two digits is not moved
    into a century: the year of the [datetime] is the number the two
    digits spell, between 1 and 99, and any other input with the same two
    digits for its year, in either grammar, gives the same year. *)
Theorem two_digit_year_kept (s : string) (ts : TimeStamp) (y : string) (dt : datetime) :
  parse_time_str s = Some ts ->
  Year ts = VStr y ->
  String.length y = 2%nat ->
  _datetime ts = Ok dt ->
  py_int (VStr y) = Ok (year dt)
  /\ (1 <= year dt <= 99)%Z
  /\ (forall s' ts' dt',
        parse_time_str s' = Some ts' -> Year ts' = VStr y ->
        _datetime ts' = Ok dt' -> year dt' = year dt).
Proof.
  intros H Hy Hlen Hdt.
  destruct (two_digit_year_value _ H Hy Hlen Hdt) as [Hv Hr].
  split; [assumption|]. split; [assumption|].
  intros s' ts' dt' H' Hy' Hdt'.
  destruct (two_digit_year_value _ H' Hy' Hlen Hdt') as [Hv' _].
  congruence.
Qed.

Lemma two_digit_year_kept_witness :
  parse_time_str "01/05/21 14:30"
  = Some (mk_TimeStamp (VStr "21") (VStr "05") (VStr "01") (VStr "14") (VStr "30") VNone)
  /\ py_int (VStr "21") = Ok 21%Z /\ (1 <= 21 <= 99)%Z.
Proof.
  split; [reflexivity|].
  destruct (@two_digit_year_kept "01/05/21 14:30"
              (mk_TimeStamp (VStr "21") (VStr "05") (VStr "01")
                            (VStr "14") (VStr "30") VNone)
              "21" (mk_datetime 21 5 1 14 30 0) eq_refl eq_refl eq_refl eq_refl)
    as (H1 & H2 & _).
  split; [exact H1 | exact H2].
Defined.

(** C4, as the claim has it, fails: ["21-05-01*14:30"] and
    ["01/05/21 14:30"] both give the year 21, which has two digits. *)
Lemma two_digit_year_not_normalized :
  exists ts dt,
    parse_time_str "21-05-01*14:30" = Some ts
    /\ parse_time_str "01/05/21 14:30" = Some ts
    /\ Year ts = VStr "21"
    /\ _datetime ts = Ok dt
    /\ year dt = 21%Z /\ ~ (1000 <= year dt <= 9999)%Z.
Proof.
  exists (mk_TimeStamp (VStr "21") (VStr "05") (VStr "01") (VStr "14") (VStr "30") VNone).
  exists (mk_datetime 21 5 1 14 30 0).
  repeat split; try reflexivity. simpl. lia.
Qed.

(** The same date written in the two grammars gives the same [TimeStamp]. *)
Lemma same_date_same_stamp y mo d h mi se :
  fields_ok y mo d h mi se ->
  parse_time_str (text_ymd y mo d h mi se) = parse_time_str (text_dmy y mo d h mi se).
Proof.
  intros Hok. rewrite !parse_time_str_unfold.
  rewrite (ymd_exact Hok), (dmy_exact Hok).
  pose proof (dmy_not_ymd "" Hok) as E. rewrite append_nil_r in E.
  now rewrite E.
Qed.

Lemma month_text_cases m : month_text m -> In m month_texts.
Proof.
  destruct 1 as [b Hb | b Hb].
  - apply range02_cases in Hb. simpl in Hb.
    repeat (destruct Hb as [<- | Hb]; [simpl; tauto|]). destruct Hb.
  - apply digit_cases in Hb. simpl in Hb.
    repeat (destruct Hb as [<- | Hb]; [simpl; tauto|]). destruct Hb.
Qed.

(** C6, as the code has it.  The month of a parsed timestamp is one of the
    thirteen texts 00 to 12, and each of them, 00 included, is taken, in
    either grammar. *)
Theorem month_field_accepted :
  (forall s ts, parse_time_str s = Some ts ->
                exists m, Month ts = VStr m /\ In m month_texts)
  /\ (forall m, In m month_texts ->
                exists ts, parse_time_str ("2021-" ++ m ++ "-01*14:30") = Some ts
                           /\ parse_time_str ("01/" ++ m ++ "/2021 14:30") = Some ts
                           /\ Month ts = VStr m).
Proof.
  split.
  - intros s ts H.
    destruct (parse_time_str_shape _ H)
      as (y & mo & d & h & mi & se & rest & [_ Hmo _ _ _ _] & _ & ->).
    exists mo. split; [reflexivity | now apply month_text_cases].
  - intros m Hm. unfold month_texts in Hm. simpl in Hm.
    repeat (destruct Hm as [<- | Hm];
            [eexists; split; [reflexivity | split; reflexivity]|]).
    destruct Hm.
Qed.

Lemma month_field_accepted_witness :
  (exists m, VStr "05" = VStr m /\ In m month_texts)
  /\ (exists ts, parse_time_str ("2021-" ++ "00" ++ "-01*14:30") = Some ts
                 /\ parse_time_str ("01/" ++ "00" ++ "/2021 14:30") = Some ts
                 /\ Month ts = VStr "00").
Proof.
  destruct month_field_accepted as [H1 H2]. split.
  - exact (H1 "2021-05-01*14:30"
              (mk_TimeStamp (VStr "2021") (VStr "05") (VStr "01")
                            (VStr "14") (VStr "30") VNone) eq_refl).
  - apply H2. simpl. tauto.
Defined.

(** C6, as the claim has it, fails: the month 00 is outside 01 to 12 and
    ["2021-00-01*14:30"] is parsed all the same. *)
Lemma month_zero_accepted :
  exists ts,
    parse_time_str "2021-00-01*14:30" = Some ts
    /\ Month ts = VStr "00" /\ py_int (Month ts) = Ok 0%Z.
Proof. eexists. repeat split. Qed.

(** ** [parse_log_line] *)

Lemma line_shape line m :
  Re.re_match regex_line line = Some m ->
  exists c k, Re.cset_mem Re.Digit c = true
              /\ m = [("Kind", k); ("Repeat", String c "")].
Proof.
  intros H. apply re_match_sound in H. destruct H as (w & rest & -> & H).
  cbv in H. sem_inv; eauto.
Qed.

(** A line without a timestamp gives no record, and no error. *)
Lemma parse_log_line_no_timestamp line :
  parse_time_str line = None -> parse_log_line line = Ok None.
Proof. unfold parse_log_line. now intros ->. Qed.

(** A line with a timestamp and without the repeat and kind phrase raises
    an error: [matched] is [None] and is subscripted all the same. *)
Lemma parse_log_line_no_suffix line ts :
  parse_time_str line = Some ts ->
  Re.re_match regex_line line = None ->
  exists e, parse_log_line line = Raise e.
Proof.
  unfold parse_log_line. intros -> ->.
  destruct (_datetime ts) as [dt|e]; simpl; eauto.
Qed.

(** C1 fails on the code at ["2021-05-01*14:30 hello"]: the timestamp is
    parsed, the phrase [<repeat> time(s) <category>] is missing, and
    [parse_log_line] raises a [TypeError] instead of returning no record;
    without a timestamp it does return no record. *)
Theorem parse_log_line_missing_suffix_raises :
  parse_time_str "2021-05-01*14:30 hello"
  = Some (mk_TimeStamp (VStr "2021") (VStr "05") (VStr "01")
                       (VStr "14") (VStr "30") VNone)
  /\ Re.re_match regex_line "2021-05-01*14:30 hello" = None
  /\ parse_log_line "2021-05-01*14:30 hello" = Raise TypeError
  /\ parse_log_line "not a log entry" = Ok None.
Proof. repeat split. Qed.

(** C2.  The line ["2021-05-01*14:30 3 times oral (partner)"] gives one
    record: the instant 2021-05-01 14:30:00, the repeat count 3 and the
    category ["oral (partner)"] with its qualifier; the end of line that
    [readlines] leaves on the line changes nothing. *)
Theorem parse_log_line_example :
  parse_log_line "2021-05-01*14:30 3 times oral (partner)"
  = Ok (Some (LogLine.mk (mk_datetime 2021 5 1 14 30 0) 3 (VStr "oral (partner)")))
  /\ parse_log_line (String.append "2021-05-01*14:30 3 times oral (partner)"
                                   (String "010" ""))
     = Ok (Some (LogLine.mk (mk_datetime 2021 5 1 14 30 0) 3 (VStr "oral (partner)"))).
Proof. split; reflexivity. Qed.

(** C5, as the code has it.  The repeat count of a record is the value of
    the one digit in front of [time(s)], between 0 and 9; no default is
    used by [parse_log_line]. *)
Theorem repeat_count_range (line : string) (rec : LogLine.t) :
  parse_log_line line = Ok (Some rec) ->
  (0 <= LogLine.Repeat rec <= 9)%Z
  /\ exists m c, Re.re_match regex_line line = Some m
                 /\ Re.item m "Repeat" = VStr (String c "")
                 /\ py_int (VStr (String c "")) = Ok (LogLine.Repeat rec).
Proof.
  unfold parse_log_line.
  destruct (parse_time_str line) as [ts|]; [|discriminate].
  destruct (Re.re_match regex_line line) as [m|] eqn:Em.
  - destruct (line_shape _ Em) as (c & k & Hc & ->).
    destruct (_datetime ts) as [dt|e]; [|discriminate].
    pose proof (digit_value _ Hc) as Hv.
    assert (E : py_int (VStr (String c ""))
                = Ok (10 * 0 + (Z.of_N (Re.code c) - 48))%Z).
    { cbn [py_int digits_value].
      change (Re.is_digit c) with (Re.cset_mem Re.Digit c). now rewrite Hc. }
    change (subscript (Some [("Kind", k); ("Repeat", String c "")]) "Repeat")
      with (Ok (A := value) (VStr (String c ""))).
    cbn [bind]. rewrite E. cbn [bind subscript].
    intros [= <-]. cbn [LogLine.Repeat].
    split; [lia|]. exists [("Kind", k); ("Repeat", String c "")], c.
    repeat split; assumption.
  - destruct (_datetime ts) as [dt|e]; discriminate.
Qed.

Lemma repeat_count_range_witness :
  (0 <= 3 <= 9)%Z
  /\ exists m c,
       Re.re_match regex_line "2021-05-01*14:30 3 times oral (partner)" = Some m
       /\ Re.item m "Repeat" = VStr (String c "")
       /\ py_int (VStr (String c "")) = Ok 3%Z.
Proof.
  apply (@repeat_count_range "2021-05-01*14:30 3 times oral (partner)"
           (LogLine.mk (mk_datetime 2021 5 1 14 30 0) 3 (VStr "oral (partner)"))).
  reflexivity.
Defined.

(** C5, as the claim has it, fails: a line that says [0 times] gives a
    record whose repeat count is 0. *)
Lemma repeat_count_zero :
  exists rec,
    parse_log_line "2021-05-01*14:30 0 times oral" = Ok (Some rec)
    /\ LogLine.Repeat rec = 0%Z /\ ~ (1 <= LogLine.Repeat rec)%Z.
Proof.
  eexists. split; [reflexivity|]. split; [reflexivity|]. simpl. lia.
Qed.

(** ** [time_function] *)

Lemma in_minutes m : (0 <= m <= 59)%Z -> In m minutes.
Proof.
  intros H. unfold minutes. rewrite <- (Z2Nat.id m) by lia.
  apply in_map, in_seq. lia.
Qed.

Lemma rounds_to_minutes f r :
  forallb (rounds_to f r) minutes = true ->
  forall m, (0 <= m <= 59)%Z -> py_round (f m) = Ok (r m).
Proof.
  intros H m Hm. rewrite forallb_forall in H.
  specialize (H m (in_minutes Hm)). unfold rounds_to in H.
  destruct (py_round (f m)) as [z|e]; [|discriminate].
  apply Z.eqb_eq in H. now subst.
Qed.

(** [round(m/60)] is 0 up to the half hour, which is a tie and goes to the
    even 0, and 1 after it. *)
Lemma round_whole_hour m :
  (0 <= m <= 59)%Z ->
  py_round (truediv m 60) = Ok (if (m <=? 30)%Z then 0 else 1)%Z.
Proof.
  apply (@rounds_to_minutes (fun m => truediv m 60)
           (fun m => if (m <=? 30)%Z then 0 else 1)%Z).
  vm_compute. reflexivity.
Qed.

(** C7.  The mapping that [time_function] returns adds to the hour a step
    chosen by the number of rows alone: whole hours up to 50 rows, half
    hours up to 100, quarter hours up to 200, tenths of an hour beyond;
    over exactly 50 rows the result is the hour or the next one. *)
Theorem time_function_precision (df : DataFrame) (x : datetime) :
  ((index df <= 50)%nat -> time_function df x = whole_hour x)
  /\ ((50 < index df <= 100)%nat -> time_function df x = half_hour x)
  /\ ((100 < index df <= 200)%nat -> time_function df x = quarter_hour x)
  /\ ((200 < index df)%nat -> time_function df x = tenth_hour x)
  /\ (index df = 50%nat -> (0 <= minute x <= 59)%Z ->
      time_function df x
      = Ok (NInt (hour x + (if (minute x <=? 30)%Z then 0 else 1)))).
Proof.
  unfold time_function, fn.
  repeat split; intros H.
  - apply Nat.leb_le in H. now rewrite H.
  - destruct H as [H1 H2]. apply Nat.leb_gt in H1. apply Nat.leb_le in H2.
    now rewrite H1, H2.
  - destruct H as [H1 H2].
    assert (H0 : (50 < index df)%nat) by lia.
    apply Nat.leb_gt in H0, H1. apply Nat.leb_le in H2.
    now rewrite H0, H1, H2.
  - assert (H0 : (50 < index df)%nat) by lia.
    assert (H1 : (100 < index df)%nat) by lia.
    apply Nat.leb_gt in H0, H1, H. now rewrite H0, H1, H.
  - intros Hm. rewrite H. cbn [Nat.leb].
    now rewrite (round_whole_hour Hm).
Qed.

Lemma time_function_precision_witness :
  time_function (mk_DataFrame 50 []) (mk_datetime 2021 5 1 14 30 0) = Ok (NInt 14)
  /\ time_function (mk_DataFrame 51 []) (mk_datetime 2021 5 1 14 30 0)
     = half_hour (mk_datetime 2021 5 1 14 30 0).
Proof.
  pose proof (time_function_precision (mk_DataFrame 50 []) (mk_datetime 2021 5 1 14 30 0))
    as (_ & _ & _ & _ & H).
  pose proof (time_function_precision (mk_DataFrame 51 []) (mk_datetime 2021 5 1 14 30 0))
    as (_ & H' & _).
  split.
  - apply H; [reflexivity | simpl; lia].
  - apply H'. simpl. lia.
Defined.

(** ** [group_data] *)

Lemma py_in_In x xs : py_in x xs = true <-> In x xs.
Proof.
  unfold py_in. rewrite existsb_exists. split.
  - intros (y & Hy & E). apply String.eqb_eq in E. now subst.
  - intros H. exists x. split; [assumption | apply String.eqb_refl].
Qed.

(** C8.  [group_data] knows the six periods, by the aliases W, SM, M, Q, A
    and H, and no other token: for each of the six it returns the frame
    resampled by that alias on [TimeStamp] (a frame whose [TimeStamp]
    column holds instants), and for any other token it returns [None]. *)
Theorem group_data_tokens :
  available_offset = map alias Period.all
  /\ (forall df col g,
        lookup (columns df) "TimeStamp" = Some col ->
        forallb is_time col = true ->
        group_data df (alias g) = Ok (Some (mk_Resampler df (alias g) "TimeStamp")))
  /\ (forall df token,
        ~ In token (map alias Period.all) -> group_data df token = Ok None).
Proof.
  split; [reflexivity|]. split.
  - intros df col g Hcol Htime. unfold group_data, resample.
    rewrite Hcol, Htime. now destruct g.
  - intros df token Hn. unfold group_data.
    destruct (py_in token available_offset) eqn:E; [|reflexivity].
    apply py_in_In in E. contradiction.
Qed.

Lemma group_data_tokens_witness :
  group_data (mk_DataFrame 1 [("TimeStamp", [CTime (mk_datetime 2021 5 1 14 30 0)])]) "M"
  = Ok (Some (mk_Resampler
                (mk_DataFrame 1 [("TimeStamp", [CTime (mk_datetime 2021 5 1 14 30 0)])])
                "M" "TimeStamp"))
  /\ group_data (mk_DataFrame 1 [("TimeStamp", [CTime (mk_datetime 2021 5 1 14 30 0)])]) "D"
     = Ok None.
Proof.
  destruct group_data_tokens as (_ & H1 & H2).
  split.
  - exact (H1 (mk_DataFrame 1 [("TimeStamp", [CTime (mk_datetime 2021 5 1 14 30 0)])])
              [CTime (mk_datetime 2021 5 1 14 30 0)] Period.Month eq_refl eq_refl).
  - apply H2. simpl. intros H.
    repeat (destruct H as [H | H]; [discriminate|]). destruct H.
Defined.

(** ** [read_activity_whealth] *)

Lemma to_datetime_each ds : forall ts,
  to_datetime ds = Ok ts -> Forall2 (fun d t => to_datetime1 d = Ok t) ds ts.
Proof.
  induction ds as [|d ds IH]; simpl; intros ts H.
  - injection H as <-. constructor.
  - apply bind_ok in H. destruct H as (t & Ht & H).
    apply bind_ok in H. destruct H as (ts' & Hts & H).
    injection H as <-. constructor; auto.
Qed.

Lemma lookup_filter V (keep : string -> bool) (cols : list (string * V)) l :
  lookup (filter (fun c => keep (fst c)) cols) l
  = if keep l then lookup cols l else None.
Proof.
  induction cols as [|[k v] cols IH]; simpl.
  - now destruct (keep l).
  - destruct (keep k) eqn:Ek; simpl; destruct (String.eqb k l) eqn:E.
    + apply String.eqb_eq in E. subst. now rewrite Ek.
    + exact IH.
    + apply String.eqb_eq in E. subst. now rewrite IH, Ek.
    + exact IH.
Qed.

Lemma lookup_replace cols l v l' :
  lookup (replace_column cols l v) l'
  = if String.eqb l l' then option_map (fun _ => v) (lookup cols l)
    else lookup cols l'.
Proof.
  induction cols as [|[k w] cols IH]; simpl.
  - now destruct (String.eqb l l').
  - destruct (String.eqb k l) eqn:Ek; simpl.
    + apply String.eqb_eq in Ek. subst k. now destruct (String.eqb l l').
    + destruct (String.eqb l l') eqn:El.
      * apply String.eqb_eq in El. subst l'. now rewrite Ek.
      * now destruct (String.eqb k l').
Qed.

Lemma lookup_app V (cols more : list (string * V)) l :
  lookup (cols ++ more) l
  = match lookup cols l with Some v => Some v | None => lookup more l end.
Proof.
  induction cols as [|[k v] cols IH]; simpl; [reflexivity|].
  now destruct (String.eqb k l).
Qed.

Lemma lookup_setitem df l v l' :
  lookup (columns (setitem df l v)) l'
  = if String.eqb l l' then Some v else lookup (columns df) l'.
Proof.
  unfold setitem, has_label. cbn [columns].
  destruct (lookup (columns df) l) as [w|] eqn:E.
  - rewrite lookup_replace, E. reflexivity.
  - rewrite lookup_app. simpl.
    destruct (String.eqb l l') eqn:El.
    + apply String.eqb_eq in El. subst l'. now rewrite E.
    + now destruct (lookup (columns df) l').
Qed.

Lemma lookup_rename mapping df old new :
  renamed mapping old = new ->
  (forall l, renamed mapping l = new -> l <> old -> lookup (columns df) l = None) ->
  lookup (columns (rename mapping df)) new = lookup (columns df) old.
Proof.
  unfold rename. cbn [columns]. intros Hold Hothers.
  induction (columns df) as [|[k v] cols IH]; simpl; [reflexivity|].
  assert (Hk : fst (match lookup mapping k with Some l => (l, v) | None => (k, v) end)
               = renamed mapping k /\
               snd (match lookup mapping k with Some l => (l, v) | None => (k, v) end) = v).
  { unfold renamed. now destruct (lookup mapping k). }
  destruct (match lookup mapping k with Some l => (l, v) | None => (k, v) end)
    as [k' v']. simpl in Hk. destruct Hk as [-> ->].
  simpl. destruct (String.eqb k old) eqn:Ek.
  - apply String.eqb_eq in Ek. subst k. now rewrite Hold, String.eqb_refl.
  - apply String.eqb_neq in Ek.
    destruct (String.eqb (renamed mapping k) new) eqn:Er.
    + apply String.eqb_eq in Er. specialize (Hothers k Er Ek).
      simpl in Hothers. now rewrite String.eqb_refl in Hothers.
    + apply IH. intros l Hl Hne. specialize (Hothers l Hl Hne). simpl in Hothers.
      destruct (String.eqb k l); [discriminate | assumption].
Qed.

Lemma nth_repeat_in A (c d : A) n i : (i < n)%nat -> nth i (repeat c n) d = c.
Proof.
  revert i. induction n as [|n IH]; intros i Hi; [lia|].
  destruct i as [|i]; simpl; [reflexivity | apply IH; lia].
Qed.

Lemma map_nth2_seq A B C (f : A -> B -> C) (da : A) (db : B) :
  forall (xs : list A) (ys : list B) n,
  List.length xs = n -> List.length ys = n ->
  map (fun i => f (nth i xs da) (nth i ys db)) (seq 0 n)
  = map (fun '(x, y) => f x y) (combine xs ys).
Proof.
  induction xs as [|x xs IH]; intros ys n Hx Hy; simpl in Hx; subst n.
  - reflexivity.
  - destruct ys as [|y ys]; [discriminate|]. simpl in Hy. injection Hy as Hy.
    cbn [seq map combine nth]. f_equal.
    rewrite <- seq_shift, map_map. cbn [nth]. now apply IH.
Qed.

Lemma records_normalized n ts vs :
  List.length ts = n -> List.length vs = n ->
  records (mk_DataFrame n [("TimeStamp", ts); ("Repeat", vs);
                           ("Kind", repeat (CStr "Unknown") n)])
  = map (fun '(t, v) => log_record t v) (combine ts vs).
Proof.
  intros Ht Hv. unfold records. cbn [index columns map].
  rewrite <- (@map_nth2_seq _ _ _ log_record CNaN CNaN ts vs n Ht Hv).
  apply map_ext_in. intros i Hi. apply in_seq in Hi.
  unfold log_record. now rewrite nth_repeat_in by lia.
Qed.


Lemma renamed_cases l new :
  renamed [("startdate", "TimeStamp"); ("value", "Repeat")] l = new ->
  (l = "startdate" /\ new = "TimeStamp") \/ (l = "value" /\ new = "Repeat")
  \/ l = new.
Proof.
  unfold renamed. cbn [lookup].
  destruct (String.eqb "startdate" l) eqn:E1.
  - apply String.eqb_eq in E1. intros <-. auto.
  - destruct (String.eqb "value" l) eqn:E2.
    + apply String.eqb_eq in E2. intros <-. auto.
    + auto.
Qed.

(** C9.  On a health export whose table has the columns [startdate],
    [value], [unit], [name] and [source], the reader keeps every row in its
    place: the index is unchanged, [TimeStamp] is the [startdate] column
    converted value by value, [Repeat] is the [value] column, [Kind] is
    ["Unknown"] on every row, and [unit], [name] and [source] are gone.
    When these five are all the columns, the records of the result are
    those of the rows of the export, one each and in their order.  The
    one-row export [export_csv] gives the one record
    2021-05-01T14:30:00, 3, ["Unknown"]. *)
Theorem read_activity_whealth_rows :
  (forall (read_csv : string -> ascii -> result DataFrame) (fp : string)
          (df0 : DataFrame) (ds vs ts : list cell),
      read_csv fp ";"%char = Ok df0 ->
      lookup (columns df0) "startdate" = Some ds ->
      lookup (columns df0) "value" = Some vs ->
      forallb (has_label (columns df0)) ["unit"; "name"; "source"] = true ->
      lookup (columns df0) "TimeStamp" = None ->
      lookup (columns df0) "Repeat" = None ->
      to_datetime ds = Ok ts ->
      exists df,
        read_activity_whealth read_csv fp = Ok df
        /\ index df = index df0
        /\ lookup (columns df) "TimeStamp" = Some ts
        /\ Forall2 (fun d t => to_datetime1 d = Ok t) ds ts
        /\ lookup (columns df) "Repeat" = Some vs
        /\ lookup (columns df) "Kind" = Some (repeat (CStr "Unknown") (index df0))
        /\ lookup (columns df) "unit" = None
        /\ lookup (columns df) "name" = None
        /\ lookup (columns df) "source" = None)
  /\ (forall (read_csv : string -> ascii -> result DataFrame) (fp : string)
             (n : nat) (ds vs us ns ss ts : list cell),
        read_csv fp ";"%char
        = Ok (mk_DataFrame n [("startdate", ds); ("value", vs); ("unit", us);
                              ("name", ns); ("source", ss)]) ->
        List.length ds = n -> List.length vs = n ->
        to_datetime ds = Ok ts ->
        exists df,
          read_activity_whealth read_csv fp = Ok df
          /\ records df = map (fun '(t, v) => log_record t v) (combine ts vs))
  /\ (exists df,
        read_activity_whealth (read_csv_plain [("export.csv", export_csv)]) "export.csv"
        = Ok df
        /\ records df
           = [log_record (CTime (mk_datetime 2021 5 1 14 30 0)) (CInt 3)]).
Proof.
  split; [|split].
  2: { intros read_csv fp n ds vs us ns ss ts Hread Hds Hvs Hts.
       exists (mk_DataFrame n [("TimeStamp", ts); ("Repeat", vs);
                               ("Kind", repeat (CStr "Unknown") n)]).
       split.
       - unfold read_activity_whealth. rewrite Hread. cbn. rewrite Hts.
         reflexivity.
       - apply records_normalized; [|assumption].
         apply to_datetime_each in Hts. apply Forall2_length in Hts. lia. }
  - intros read_csv fp df0 ds vs ts Hread Hds Hvs Hdrop Hnt Hnr Hts.
    unfold read_activity_whealth. rewrite Hread. cbn [bind].
    unfold drop. rewrite Hdrop. cbn [bind].
    set (keep := fun l => negb (existsb (String.eqb l) ["unit"; "name"; "source"])).
    set (df1 := mk_DataFrame (index df0)
                  (filter (fun c => negb (existsb (String.eqb (fst c))
                                            ["unit"; "name"; "source"]))
                          (columns df0))).
    assert (L1 : forall l, lookup (columns df1) l
                           = if keep l then lookup (columns df0) l else None).
    { intros l. unfold df1. cbn [columns].
      exact (lookup_filter keep (columns df0) l). }
    set (mapping := [("startdate", "TimeStamp"); ("value", "Repeat")]).
    assert (LT : lookup (columns (rename mapping df1)) "TimeStamp" = Some ds).
    { rewrite (@lookup_rename mapping df1 "startdate" "TimeStamp" eq_refl).
      - now rewrite L1.
      - intros l Hl Hne. destruct (renamed_cases _ Hl) as [[-> _] | [[_ E] | ->]];
          [contradiction | discriminate |].
        now rewrite L1. }
    assert (LR : lookup (columns (rename mapping df1)) "Repeat" = Some vs).
    { rewrite (@lookup_rename mapping df1 "value" "Repeat" eq_refl).
      - now rewrite L1.
      - intros l Hl Hne. destruct (renamed_cases _ Hl) as [[_ E] | [[-> _] | ->]];
          [discriminate | contradiction |].
        now rewrite L1. }
    assert (LD : forall l, In l ["unit"; "name"; "source"] ->
                           lookup (columns (rename mapping df1)) l = None).
    { intros l Hl.
      rewrite (@lookup_rename mapping df1 l l).
      - rewrite L1. simpl in Hl.
        now destruct Hl as [<- | [<- | [<- | []]]].
      - simpl in Hl. now destruct Hl as [<- | [<- | [<- | []]]].
      - intros l' Hl' Hne. destruct (renamed_cases _ Hl') as [[_ ->] | [[_ ->] | E]];
          [| | contradiction];
          simpl in Hl; destruct Hl as [E | [E | [E | []]]]; discriminate. }
    unfold getattr. rewrite LT. cbn [bind]. rewrite Hts. cbn [bind].
    eexists. split; [reflexivity|].
    unfold setitem_scalar. rewrite !lookup_setitem. cbn [String.eqb Ascii.eqb Bool.eqb].
    repeat split; try reflexivity; auto using to_datetime_each.
    all: apply LD; simpl; auto.
  - eexists. split; reflexivity.
Qed.

Lemma read_activity_whealth_rows_witness :
  exists df,
    read_activity_whealth (read_csv_plain [("export.csv", export_csv)]) "export.csv" = Ok df
    /\ index df = 1%nat
    /\ lookup (columns df) "TimeStamp" = Some [CTime (mk_datetime 2021 5 1 14 30 0)]
    /\ lookup (columns df) "Repeat" = Some [CInt 3]
    /\ lookup (columns df) "Kind" = Some [CStr "Unknown"]
    /\ lookup (columns df) "unit" = None.
Proof.
  destruct (proj1 read_activity_whealth_rows
              (read_csv_plain [("export.csv", export_csv)]) "export.csv"
              (mk_DataFrame 1 [("startdate", [CStr "2021-05-01T14:30:00"]);
                               ("value", [CInt 3]); ("unit", [CStr "count"]);
                               ("name", [CStr "Sex"]);
                               ("source", [CStr "Manual Entry"])])
              [CStr "2021-05-01T14:30:00"] [CInt 3]
              [CTime (mk_datetime 2021 5 1 14 30 0)]
              eq_refl eq_refl eq_refl eq_refl eq_refl eq_refl eq_refl)
    as (df & H & Hi & Ht & _ & Hr & Hk & Hu & _).
  exists df. repeat split; assumption.
Defined.

(** * Further properties *)

(** ** The matcher on the date and on the time of a timestamp *)

Lemma digit_not_space c :
  Re.cset_mem Re.Digit c = true -> Ascii.eqb c " " = false.
Proof. by_cases c; reflexivity. Qed.

Section Following.

#[local] Arguments Ascii.eqb !a !b.
#[local] Arguments Re.cset_mem p !c.

Ltac settle :=
  match goal with
  | H : Re.cset_mem ?p ?c = true |- context [Re.cset_mem ?p ?c] => rewrite H
  | H : Re.cset_mem Re.Digit ?c = true |- context [Ascii.eqb ?c " "] =>
      rewrite (@digit_not_space c H)
  | |- context [if Re.cset_mem ?p ?c then _ else _] => destruct (Re.cset_mem p c) eqn:?
  | |- context [if Ascii.eqb ?a ?b then _ else _] => destruct (Ascii.eqb a b) eqn:?
  | |- context [match Re.exec ?r ?s ?g ?k with Some _ => _ | None => _ end] =>
      destruct (Re.exec r s g k)
  end; cbn.

Ltac follow := cbn; repeat settle; try reflexivity.

Local Open Scope re_scope.

Lemma exec_date_ymd (R : Re.regex) y mo d s :
  year_text y -> month_text mo -> day_text d ->
  Re.exec (Regex.Year >> Re.Lit "-" >> Regex.Month >> Re.Lit "-" >> Regex.Day
           >> Re.Lit "*" >> R)
          (y ++ "-" ++ mo ++ "-" ++ d ++ "*" ++ s) [] (fun _ _ g => Some g)
  = Re.exec R s [("Day", d); ("Month", mo); ("Year", y)] (fun _ _ g => Some g).
Proof.
  intros Hy Hmo Hd. destruct Hy, Hmo, Hd.
  all: follow.
Qed.

Lemma exec_date_dmy (R : Re.regex) y mo d s :
  year_text y -> month_text mo -> day_text d ->
  Re.exec (Regex.Day >> Re.Lit "/" >> Regex.Month >> Re.Lit "/" >> Regex.Year
           >> Re.Lit " " >> R)
          (d ++ "/" ++ mo ++ "/" ++ y ++ " " ++ s) [] (fun _ _ g => Some g)
  = Re.exec R s [("Year", y); ("Month", mo); ("Day", d)] (fun _ _ g => Some g).
Proof.
  intros Hy Hmo Hd. destruct Hy, Hmo, Hd.
  all: follow.
Qed.

Lemma exec_time h mi rest g :
  hour_text h -> sixty_text mi ->
  Re.exec Regex.Time (h ++ ":" ++ mi ++ rest) g (fun _ _ g' => Some g')
  = Some (time_groups h mi (seconds_after rest) g).
Proof.
  intros Hh Hmi. destruct Hh, Hmi; unfold time_groups, seconds_after;
    destruct rest as [|? [|? [|? ?]]].
  all: follow.
Qed.

End Following.

Lemma ymd_after y mo d h mi rest :
  fields_ok y mo d h mi None ->
  stamp regex_ymd (text_ymd y mo d h mi None ++ rest)
  = Some (mk_TimeStamp (VStr y) (VStr mo) (VStr d) (VStr h) (VStr mi)
                       (opt_value (seconds_after rest))).
Proof.
  intros [Hy Hmo Hd Hh Hmi _].
  unfold stamp, Re.re_match, text_ymd, time_suffix. rewrite append_nil_r.
  rewrite !append_assoc.
  unfold regex_ymd. rewrite (@exec_date_ymd Regex.Time y mo d _ Hy Hmo Hd).
  rewrite (@exec_time h mi rest _ Hh Hmi).
  destruct (seconds_after rest); reflexivity.
Qed.

Lemma dmy_after y mo d h mi rest :
  fields_ok y mo d h mi None ->
  stamp regex_dmy (text_dmy y mo d h mi None ++ rest)
  = Some (mk_TimeStamp (VStr y) (VStr mo) (VStr d) (VStr h) (VStr mi)
                       (opt_value (seconds_after rest))).
Proof.
  intros [Hy Hmo Hd Hh Hmi _].
  unfold stamp, Re.re_match, text_dmy, time_suffix. rewrite append_nil_r.
  rewrite !append_assoc.
  unfold regex_dmy. rewrite (@exec_date_dmy Regex.Time y mo d _ Hy Hmo Hd).
  rewrite (@exec_time h mi rest _ Hh Hmi).
  destruct (seconds_after rest); reflexivity.
Qed.

(** ** The exact behaviour of [parse_time_str] *)

Lemma seconds_after_sixty x rest :
  sixty_text x -> seconds_after (":" ++ x ++ rest) = Some x.
Proof.
  destruct 1 as [a b Ha Hb]. cbn [append seconds_after].
  change (Ascii.eqb ":" ":") with true. now rewrite Ha, Hb.
Qed.

Lemma seconds_after_append rest t x :
  seconds_after rest = Some x -> seconds_after (rest ++ t) = Some x.
Proof.
  destruct rest as [|c [|a [|b r]]]; try discriminate. exact (fun H => H).
Qed.

Lemma text_ymd_seconds y mo d h mi x rest :
  text_ymd y mo d h mi (Some x) ++ rest
  = text_ymd y mo d h mi None ++ (":" ++ x ++ rest).
Proof.
  unfold text_ymd. cbn [time_suffix]. rewrite !append_assoc. reflexivity.
Qed.

Lemma text_dmy_seconds y mo d h mi x rest :
  text_dmy y mo d h mi (Some x) ++ rest
  = text_dmy y mo d h mi None ++ (":" ++ x ++ rest).
Proof.
  unfold text_dmy. cbn [time_suffix]. rewrite !append_assoc. reflexivity.
Qed.

Lemma fields_ok_none y mo d h mi se :
  fields_ok y mo d h mi se -> fields_ok y mo d h mi None.
Proof. intros [? ? ? ? ? _]. now constructor. Qed.

(** Every parse, put as a text without seconds and what follows it. *)
Lemma parse_time_str_text s ts :
  parse_time_str s = Some ts ->
  exists y mo d h mi rest,
    fields_ok y mo d h mi None
    /\ (s = text_ymd y mo d h mi None ++ rest \/ s = text_dmy y mo d h mi None ++ rest)
    /\ ts = mk_TimeStamp (VStr y) (VStr mo) (VStr d) (VStr h) (VStr mi)
                         (opt_value (seconds_after rest)).
Proof.
  intros H. pose proof H as H0. rewrite parse_time_str_unfold in H0.
  destruct (@parse_time_str_shape s ts H)
    as (y & mo & d & h & mi & se & rest & Hok & Hs & ->).
  pose proof (@fields_ok_none y mo d h mi se Hok) as Hok'.
  assert (Hx : forall x, se = Some x -> sixty_text x).
  { intros x ->. now destruct Hok. }
  destruct se as [x|].
  - exists y, mo, d, h, mi, (":" ++ x ++ rest). split; [assumption|]. split.
    + destruct Hs as [-> | ->];
        [left; apply text_ymd_seconds | right; apply text_dmy_seconds].
    + now rewrite (@seconds_after_sixty x rest (Hx x eq_refl)).
  - exists y, mo, d, h, mi, rest. split; [assumption|]. split; [assumption|].
    destruct Hs as [-> | ->].
    + rewrite (@ymd_after y mo d h mi rest Hok') in H0. congruence.
    + rewrite (@dmy_not_ymd y mo d h mi _ rest Hok'), (@dmy_after y mo d h mi rest Hok') in H0. congruence.
Qed.

(** X1.  [parse_time_str] returns a [TimeStamp] exactly for the inputs that
    begin with a text of one of the two grammars (year of 2 or 4 digits,
    the 4-digit ones beginning 19 or 2; month 00 to 12; day 00 to 39; hour
    of 1 or 2 digits up to 23; minute 00 to 59), and the fields are the
    texts of that beginning; [Second] is the two digits that follow a
    colon after the minute when they are there (the first up to 5), and
    [None] otherwise. *)
Theorem parse_time_str_spec (s : string) (ts : TimeStamp) :
  parse_time_str s = Some ts
  <-> exists y mo d h mi rest,
        fields_ok y mo d h mi None
        /\ (s = text_ymd y mo d h mi None ++ rest
            \/ s = text_dmy y mo d h mi None ++ rest)
        /\ ts = mk_TimeStamp (VStr y) (VStr mo) (VStr d) (VStr h) (VStr mi)
                             (opt_value (seconds_after rest)).
Proof.
  split; [apply parse_time_str_text|].
  intros (y & mo & d & h & mi & rest & Hok & Hs & ->).
  rewrite parse_time_str_unfold. destruct Hs as [-> | ->].
  - now rewrite (@ymd_after y mo d h mi rest Hok).
  - now rewrite (@dmy_not_ymd y mo d h mi _ rest Hok), (@dmy_after y mo d h mi rest Hok).
Qed.

Lemma parse_time_str_spec_witness :
  parse_time_str "01/05/2021 9:30:7 x"
  = Some (mk_TimeStamp (VStr "2021") (VStr "05") (VStr "01")
                       (VStr "9") (VStr "30") VNone).
Proof.
  apply (proj2 (parse_time_str_spec "01/05/2021 9:30:7 x" _)).
  exists "2021", "05", "01", "9", "30", ":7 x".
  split; [|split; [right; reflexivity | reflexivity]].
  constructor; constructor; reflexivity.
Defined.

(** X2.  Text added after an input that parses never makes it fail and
    never changes the year, month, day, hour or minute that is read; seconds
    that were read stay as they are. *)
Theorem parse_time_str_extend (s t : string) (ts : TimeStamp) :
  parse_time_str s = Some ts ->
  exists ts',
    parse_time_str (s ++ t) = Some ts'
    /\ Year ts' = Year ts /\ Month ts' = Month ts /\ Day ts' = Day ts
    /\ Hour ts' = Hour ts /\ Minute ts' = Minute ts
    /\ (Second ts <> VNone -> Second ts' = Second ts).
Proof.
  intros H.
  destruct (@parse_time_str_text s ts H) as (y & mo & d & h & mi & rest & Hok & Hs & ->).
  exists (mk_TimeStamp (VStr y) (VStr mo) (VStr d) (VStr h) (VStr mi)
                       (opt_value (seconds_after (rest ++ t)))).
  split.
  - rewrite parse_time_str_unfold. destruct Hs as [-> | ->]; rewrite append_assoc.
    + now rewrite (@ymd_after y mo d h mi (rest ++ t) Hok).
    + now rewrite (@dmy_not_ymd y mo d h mi _ (rest ++ t) Hok), (@dmy_after y mo d h mi (rest ++ t) Hok).
  - cbn [Year Month Day Hour Minute Second]. repeat split.
    intros Hsec. destruct (seconds_after rest) as [x|] eqn:E; [|now elim Hsec].
    now rewrite (@seconds_after_append rest t x E).
Qed.

Lemma parse_time_str_extend_witness :
  exists ts',
    parse_time_str ("2021-05-01*14:30" ++ ":05 1 time kissing") = Some ts'
    /\ Year ts' = VStr "2021" /\ Month ts' = VStr "05" /\ Day ts' = VStr "01"
    /\ Hour ts' = VStr "14" /\ Minute ts' = VStr "30"
    /\ (VNone <> VNone -> Second ts' = VNone).
Proof.
  exact (@parse_time_str_extend "2021-05-01*14:30" ":05 1 time kissing"
           (mk_TimeStamp (VStr "2021") (VStr "05") (VStr "01")
                         (VStr "14") (VStr "30") VNone) eq_refl).
Defined.

Lemma text_starts_with_digit y mo d h mi rest c s :
  fields_ok y mo d h mi None ->
  text_ymd y mo d h mi None ++ rest = String c s
  \/ text_dmy y mo d h mi None ++ rest = String c s ->
  Re.is_digit c = true.
Proof.
  intros [Hy _ Hd _ _ _] [E | E].
  - apply year_numeral in Hy. destruct Hy as [Hne Hy].
    destruct y as [|a y]; [now elim Hne|].
    unfold text_ymd in E. simpl in E. injection E as <- _.
    cbn [Re.all_in] in Hy. apply andb_prop in Hy. apply Hy.
  - apply day_numeral in Hd. destruct Hd as [Hne Hd].
    destruct d as [|a d]; [now elim Hne|].
    unfold text_dmy in E. simpl in E. injection E as <- _.
    cbn [Re.all_in] in Hd. apply andb_prop in Hd. apply Hd.
Qed.

(** X3.  A line that is empty or does not begin with a decimal digit, a
    line indented by a blank for one, has no timestamp for
    [parse_time_str], and [parse_log_line] returns [None] for it without
    an error. *)
Theorem no_leading_digit_no_record (line : string) :
  match line with
  | EmptyString => True
  | String c _ => Re.is_digit c = false
  end ->
  parse_time_str line = None /\ parse_log_line line = Ok None.
Proof.
  intros Hc.
  assert (Hn : parse_time_str line = None).
  { destruct (parse_time_str line) as [ts|] eqn:E; [|reflexivity].
    destruct (@parse_time_str_text line ts E) as (y & mo & d & h & mi & rest & Hok & Hs & _).
    destruct line as [|c s].
    - destruct Hok as [Hy _ Hd _ _ _].
      destruct Hs as [Hs | Hs]; symmetry in Hs.
      + destruct Hy; discriminate.
      + destruct Hd; discriminate.
    - assert (Re.is_digit c = true).
      { apply (@text_starts_with_digit y mo d h mi rest c s Hok).
        destruct Hs as [<- | <-]; auto. }
      congruence. }
  split; [assumption | now apply parse_log_line_no_timestamp].
Qed.

Lemma no_leading_digit_no_record_witness :
  parse_time_str " 2021-05-01*14:30 3 times oral" = None
  /\ parse_log_line " 2021-05-01*14:30 3 times oral" = Ok None.
Proof.
  apply (@no_leading_digit_no_record " 2021-05-01*14:30 3 times oral").
  reflexivity.
Defined.

(** ** The numbers in a parsed timestamp *)

Lemma range05_value c :
  Re.cset_mem (Re.Range "0" "5") c = true -> (0 <= digit_of c <= 5)%Z.
Proof. by_cases c; split; discriminate. Qed.

Lemma range03_value c :
  Re.cset_mem (Re.Range "0" "3") c = true -> (0 <= digit_of c <= 3)%Z.
Proof. by_cases c; split; discriminate. Qed.

Lemma range02_value c :
  Re.cset_mem (Re.Range "0" "2") c = true -> (0 <= digit_of c <= 2)%Z.
Proof. by_cases c; split; discriminate. Qed.

Lemma oneof01_value c :
  Re.cset_mem (Re.OneOf "01") c = true -> (0 <= digit_of c <= 1)%Z.
Proof. by_cases c; split; discriminate. Qed.

Lemma oneof123_value c :
  Re.cset_mem (Re.OneOf "123") c = true -> (1 <= digit_of c <= 3)%Z.
Proof. by_cases c; split; discriminate. Qed.

Lemma digits_value_cons c t acc :
  Re.cset_mem Re.Digit c = true ->
  digits_value (String c t) acc = digits_value t (10 * acc + digit_of c)%Z.
Proof.
  intros H. cbn [digits_value].
  change (Re.is_digit c) with (Re.cset_mem Re.Digit c). now rewrite H.
Qed.

Lemma py_int_1 a :
  Re.cset_mem Re.Digit a = true ->
  py_int (VStr (String a "")) = Ok (digit_of a).
Proof.
  intros Ha. cbn [py_int]. rewrite (@digits_value_cons a "" 0 Ha).
  cbn [digits_value]. f_equal; lia.
Qed.

Lemma py_int_2 a b :
  Re.cset_mem Re.Digit a = true -> Re.cset_mem Re.Digit b = true ->
  py_int (VStr (String a (String b ""))) = Ok (10 * digit_of a + digit_of b)%Z.
Proof.
  intros Ha Hb. cbn [py_int].
  rewrite (@digits_value_cons a (String b "") 0 Ha), (@digits_value_cons b "" _ Hb).
  cbn [digits_value]. f_equal; lia.
Qed.

Lemma py_int_4 a b c d :
  Re.cset_mem Re.Digit a = true -> Re.cset_mem Re.Digit b = true ->
  Re.cset_mem Re.Digit c = true -> Re.cset_mem Re.Digit d = true ->
  py_int (VStr (String a (String b (String c (String d "")))))
  = Ok (1000 * digit_of a + 100 * digit_of b + 10 * digit_of c + digit_of d)%Z.
Proof.
  intros Ha Hb Hc Hd. cbn [py_int].
  rewrite (@digits_value_cons a _ 0 Ha), (@digits_value_cons b _ _ Hb),
    (@digits_value_cons c _ _ Hc), (@digits_value_cons d "" _ Hd).
  cbn [digits_value]. f_equal; lia.
Qed.

Ltac class_values :=
  repeat match goal with
    | H : Re.cset_mem (Re.Range "0" "5") ?c = true |- _ =>
        pose proof (@range05_value c H);
        apply (@range_digit "5"%char c) in H; [|simpl; tauto]
    | H : Re.cset_mem (Re.Range "0" "3") ?c = true |- _ =>
        pose proof (@range03_value c H);
        apply (@range_digit "3"%char c) in H; [|simpl; tauto]
    | H : Re.cset_mem (Re.Range "0" "2") ?c = true |- _ =>
        pose proof (@range02_value c H);
        apply (@range_digit "2"%char c) in H; [|simpl; tauto]
    | H : Re.cset_mem (Re.OneOf "01") ?c = true |- _ =>
        pose proof (@oneof01_value c H);
        apply (@oneof_digit "01" c) in H; [|simpl; tauto]
    | H : Re.cset_mem (Re.OneOf "123") ?c = true |- _ =>
        pose proof (@oneof123_value c H);
        apply (@oneof_digit "123" c) in H; [|simpl; tauto]
    end;
  repeat match goal with
    | H : Re.cset_mem Re.Digit ?c = true |- _ =>
        lazymatch goal with
        | _ : (0 <= digit_of c <= 9)%Z |- _ => fail
        | _ => pose proof (@digit_value c H : (0 <= digit_of c <= 9)%Z)
        end
    end.

Lemma year_int y :
  year_text y ->
  exists n, py_int (VStr y) = Ok n /\ (0 <= n <= 99 \/ 1900 <= n <= 2999)%Z.
Proof.
  destruct 1 as [c d Hc Hd | b c d Hb Hc Hd | a b Ha Hb]; class_values.
  - eexists. split; [now apply py_int_4|].
    change (digit_of "1") with 1%Z. change (digit_of "9") with 9%Z. lia.
  - eexists. split; [now apply py_int_4|]. change (digit_of "2") with 2%Z. lia.
  - eexists. split; [now apply py_int_2|]. lia.
Qed.

Lemma month_int m :
  month_text m -> exists n, py_int (VStr m) = Ok n /\ (0 <= n <= 12)%Z.
Proof.
  destruct 1; class_values; (eexists; split; [now apply py_int_2|]).
  - change (digit_of "1") with 1%Z. lia.
  - change (digit_of "0") with 0%Z. lia.
Qed.

Lemma day_int d :
  day_text d -> exists n, py_int (VStr d) = Ok n /\ (0 <= n <= 39)%Z.
Proof.
  destruct 1; class_values; (eexists; split; [now apply py_int_2|]).
  - lia.
  - change (digit_of "0") with 0%Z. lia.
Qed.

Lemma hour_int h :
  hour_text h -> exists n, py_int (VStr h) = Ok n /\ (0 <= n <= 23)%Z.
Proof.
  destruct 1; class_values.
  - eexists. split; [now apply py_int_2|]. lia.
  - eexists. split; [now apply py_int_1|]. lia.
  - eexists. split; [now apply py_int_2|]. change (digit_of "2") with 2%Z. lia.
Qed.

Lemma sixty_int m :
  sixty_text m -> exists n, py_int (VStr m) = Ok n /\ (0 <= n <= 59)%Z.
Proof.
  destruct 1; class_values. eexists. split; [now apply py_int_2|]. lia.
Qed.

Lemma int_or_0_text s n :
  py_int (VStr s) = Ok n -> int_or_0 (VStr s) = Ok n.
Proof.
  destruct s as [|c s]; [discriminate|]. intros H. exact H.
Qed.

(** The numbers [int] makes of the fields of a parsed timestamp, and the
    call of [datetime] that [_datetime] comes to. *)
Lemma parsed_numbers s ts :
  parse_time_str s = Some ts ->
  exists y mo d h mi se,
    py_int (Year ts) = Ok y /\ py_int (Month ts) = Ok mo
    /\ py_int (Day ts) = Ok d /\ py_int (Hour ts) = Ok h
    /\ py_int (Minute ts) = Ok mi
    /\ (Second ts = VNone /\ se = 0%Z \/ py_int (Second ts) = Ok se)
    /\ ((0 <= y <= 99 \/ 1900 <= y <= 2999) /\ 0 <= mo <= 12 /\ 0 <= d <= 39
        /\ 0 <= h <= 23 /\ 0 <= mi <= 59 /\ 0 <= se <= 59)%Z
    /\ _datetime ts = datetime_new y mo d h mi se.
Proof.
  intros H.
  destruct (@parse_time_str_shape s ts H)
    as (ty & tmo & td & th & tmi & tse & rest & [Hy Hmo Hd Hh Hmi Hse] & _ & ->).
  destruct (@year_int _ Hy) as (y & Ey & By).
  destruct (@month_int _ Hmo) as (mo & Emo & Bmo).
  destruct (@day_int _ Hd) as (d & Ed & Bd).
  destruct (@hour_int _ Hh) as (h & Eh & Bh).
  destruct (@sixty_int _ Hmi) as (mi & Emi & Bmi).
  assert (Hs : exists se, int_or_0 (opt_value tse) = Ok se
                          /\ (opt_value tse = VNone /\ se = 0%Z
                              \/ py_int (opt_value tse) = Ok se)
                          /\ (0 <= se <= 59)%Z).
  { destruct tse as [x|]; cbn [opt_value opt_text] in *.
    - destruct (@sixty_int _ Hse) as (se & Ese & Bse).
      exists se. split; [now apply int_or_0_text|]. auto.
    - exists 0%Z. split; [reflexivity|]. split; [auto | lia]. }
  destruct Hs as (se & Ise & Ese & Bse).
  exists y, mo, d, h, mi, se. cbn [Year Month Day Hour Minute Second].
  repeat (split; [assumption|]). split; [tauto|].
  unfold _datetime. cbn [Year Month Day Hour Minute Second].
  rewrite (@int_or_0_text _ _ Ey), (@int_or_0_text _ _ Emo), (@int_or_0_text _ _ Ed),
    (@int_or_0_text _ _ Eh), (@int_or_0_text _ _ Emi), Ise.
  reflexivity.
Qed.

(** X4.  [int] reads every field of a parsed timestamp, and the numbers
    are bounded by the patterns: the year is 0 to 99 or 1900 to 2999, the
    month 0 to 12, the day 0 to 39, the hour 0 to 23, the minute 0 to 59,
    and the second, when there is one, 0 to 59. *)
Theorem parsed_field_ranges (s : string) (ts : TimeStamp) :
  parse_time_str s = Some ts ->
  exists y mo d h mi,
    py_int (Year ts) = Ok y /\ py_int (Month ts) = Ok mo
    /\ py_int (Day ts) = Ok d /\ py_int (Hour ts) = Ok h
    /\ py_int (Minute ts) = Ok mi
    /\ ((0 <= y <= 99 \/ 1900 <= y <= 2999) /\ 0 <= mo <= 12 /\ 0 <= d <= 39
        /\ 0 <= h <= 23 /\ 0 <= mi <= 59)%Z
    /\ (Second ts = VNone
        \/ exists se, py_int (Second ts) = Ok se /\ (0 <= se <= 59)%Z).
Proof.
  intros H.
  destruct (@parsed_numbers s ts H)
    as (y & mo & d & h & mi & se & Ey & Emo & Ed & Eh & Emi & Ese & B & _).
  exists y, mo, d, h, mi. repeat (split; [assumption|]). split; [tauto|].
  destruct Ese as [[E _] | E]; [now left | right].
  exists se. split; [assumption | tauto].
Qed.

Lemma parsed_field_ranges_witness :
  exists y mo d h mi,
    py_int (VStr "2999") = Ok y /\ py_int (VStr "00") = Ok mo
    /\ py_int (VStr "39") = Ok d /\ py_int (VStr "23") = Ok h
    /\ py_int (VStr "59") = Ok mi
    /\ ((0 <= y <= 99 \/ 1900 <= y <= 2999) /\ 0 <= mo <= 12 /\ 0 <= d <= 39
        /\ 0 <= h <= 23 /\ 0 <= mi <= 59)%Z
    /\ (VStr "59" = VNone
        \/ exists se, py_int (VStr "59") = Ok se /\ (0 <= se <= 59)%Z).
Proof.
  exact (@parsed_field_ranges "2999-00-39*23:59:59"
           (mk_TimeStamp (VStr "2999") (VStr "00") (VStr "39")
                         (VStr "23") (VStr "59") (VStr "59")) eq_refl).
Defined.

(** ** [parse_log_line], case by case *)

Lemma word_text_plus c cs :
  Re.cset_mem Re.Word c = true -> Re.all_in Re.Word cs = true ->
  word_text (String c cs).
Proof.
  intros Hc Hcs. split; [discriminate|]. cbn [Re.all_in]. now rewrite Hc, Hcs.
Qed.

Lemma line_kind line m :
  Re.re_match regex_line line = Some m ->
  exists c k, Re.cset_mem Re.Digit c = true /\ kind_text k
              /\ m = [("Kind", k); ("Repeat", String c "")].
Proof.
  intros H. apply re_match_sound in H. destruct H as (w & rest & -> & H).
  cbv in H. sem_inv.
  all: match goal with
       | Hd : Re.cset_mem Re.Digit ?c = true |- _ => exists c
       end.
  all: eexists; split; [eassumption|]; split; [|reflexivity].
  all: repeat match goal with
         | Hc : Re.cset_mem Re.Word ?c = true, Hs : Re.all_in Re.Word ?cs = true |- _ =>
             pose proof (@word_text_plus c cs Hc Hs); clear Hc Hs
         end.
  all: try (rewrite append_nil_r; now apply kind_plain).
  all: match goal with
       | H1 : word_text ?w, H2 : word_text ?q |- kind_text (?w ++ _) =>
           apply (@kind_qualified w q H1 H2)
       | H1 : word_text ?w, H2 : word_text ?q |- kind_text (?q ++ _) =>
           apply (@kind_qualified q w H2 H1)
       end.
Qed.

Lemma datetime_new_raise y mo d h mi s e :
  datetime_new y mo d h mi s = Raise e -> e = ValueError.
Proof.
  unfold datetime_new. destruct (_ && _)%bool; [discriminate|]. now intros [= <-].
Qed.

Lemma datetime_new_invalid y mo d h mi s :
  (y < 1 \/ mo < 1 \/ d < 1 \/ days_in_month y mo < d)%Z ->
  datetime_new y mo d h mi s = Raise ValueError.
Proof.
  intros H. destruct (datetime_new y mo d h mi s) as [dt|e] eqn:E.
  - apply datetime_new_ok in E. lia.
  - now rewrite (@datetime_new_raise _ _ _ _ _ _ _ E).
Qed.

Lemma repeat_and_kind dt c k :
  Re.cset_mem Re.Digit c = true ->
  (r <- subscript (Some [("Kind", k); ("Repeat", String c "")]) "Repeat" ;;
   n <- py_int r ;;
   k' <- subscript (Some [("Kind", k); ("Repeat", String c "")]) "Kind" ;;
   Ok (Some (LogLine.mk dt n k')))
  = Ok (Some (LogLine.mk dt (digit_of c) (VStr k))).
Proof.
  intros Hc.
  change (subscript (Some [("Kind", k); ("Repeat", String c "")]) "Repeat")
    with (Ok (A := value) (VStr (String c ""))).
  cbn [bind]. rewrite (@py_int_1 c Hc). reflexivity.
Qed.

Lemma parse_log_line_result (line : string) :
  match parse_time_str line with
  | None => parse_log_line line = Ok None
  | Some ts =>
      match _datetime ts with
      | Raise e => e = ValueError /\ parse_log_line line = Raise ValueError
      | Ok dt =>
          match Re.re_match regex_line line with
          | None => parse_log_line line = Raise TypeError
          | Some m =>
              exists c k,
                Re.item m "Repeat" = VStr (String c "")
                /\ Re.cset_mem Re.Digit c = true
                /\ Re.item m "Kind" = VStr k /\ kind_text k
                /\ parse_log_line line
                   = Ok (Some (LogLine.mk dt (digit_of c) (VStr k)))
          end
      end
  end.
Proof.
  unfold parse_log_line.
  destruct (parse_time_str line) as [ts|] eqn:Ets; [|reflexivity].
  destruct (@parsed_numbers line ts Ets)
    as (y & mo & d & h & mi & se & _ & _ & _ & _ & _ & _ & _ & Edt).
  destruct (_datetime ts) as [dt|e] eqn:E.
  - destruct (Re.re_match regex_line line) as [m|] eqn:Em; [|reflexivity].
    destruct (@line_kind line m Em) as (c & k & Hc & Hk & ->).
    exists c, k. repeat (split; [first [reflexivity | assumption]|]).
    cbn [bind]. now apply repeat_and_kind.
  - symmetry in Edt. apply datetime_new_raise in Edt. subst e. auto.
Qed.

(** X5.  [parse_log_line] has four outcomes and no other: [None] exactly
    when the line has no timestamp; a [ValueError] exactly when it has one
    that [datetime] refuses; a [TypeError] exactly when the date is good
    and the phrase [<digit> time(s) <kind>] is missing; a record
    otherwise. *)
Theorem parse_log_line_outcomes (line : string) :
  (parse_log_line line = Ok None <-> parse_time_str line = None)
  /\ (parse_log_line line = Raise ValueError
      <-> exists ts e, parse_time_str line = Some ts /\ _datetime ts = Raise e)
  /\ (parse_log_line line = Raise TypeError
      <-> exists ts dt, parse_time_str line = Some ts /\ _datetime ts = Ok dt
                        /\ Re.re_match regex_line line = None)
  /\ (forall e, parse_log_line line = Raise e -> e = TypeError \/ e = ValueError).
Proof.
  pose proof (parse_log_line_result line) as C.
  destruct (parse_time_str line) as [ts|] eqn:Ets.
  - destruct (_datetime ts) as [dt|e] eqn:Edt.
    + destruct (Re.re_match regex_line line) as [m|] eqn:Em.
      * destruct C as (c & k & _ & _ & _ & _ & C). rewrite C.
        repeat split; try discriminate.
        -- intros (ts' & e & [= <-] & E). congruence.
        -- intros (ts' & dt' & _ & _ & E). discriminate.
      * rewrite C. repeat split; try discriminate; eauto.
        intros (ts' & e & [= <-] & E). congruence.
        intros e [= <-]. auto.
    + destruct C as [-> C]. rewrite C. repeat split; try discriminate; eauto.
      * intros (ts' & dt' & [= <-] & E & _). congruence.
      * intros e [= <-]. auto.
  - rewrite C. repeat split; try discriminate.
    + intros (ts' & e & E & _). discriminate.
    + intros (ts' & dt' & E & _). discriminate.
Qed.

(** X6.  Every record that [parse_log_line] returns holds a date of the
    calendar (year 1 to 99 or 1900 to 2999, a month, a day of that month)
    with an hour up to 23 and minutes and seconds up to 59, built from the
    timestamp at the start of the line, and a kind that is a word, or a
    word and a word in brackets, never [None]. *)
Theorem parse_log_line_record (line : string) (rec : LogLine.t) :
  parse_log_line line = Ok (Some rec) ->
  (exists ts, parse_time_str line = Some ts
              /\ _datetime ts = Ok (LogLine.TimeStamp rec))
  /\ ((1 <= year (LogLine.TimeStamp rec) <= 99
       \/ 1900 <= year (LogLine.TimeStamp rec) <= 2999)
      /\ 1 <= month (LogLine.TimeStamp rec) <= 12
      /\ 1 <= day (LogLine.TimeStamp rec)
         <= days_in_month (year (LogLine.TimeStamp rec))
                          (month (LogLine.TimeStamp rec))
      /\ 0 <= hour (LogLine.TimeStamp rec) <= 23
      /\ 0 <= minute (LogLine.TimeStamp rec) <= 59
      /\ 0 <= second (LogLine.TimeStamp rec) <= 59)%Z
  /\ exists k, LogLine.Kind rec = VStr k /\ kind_text k.
Proof.
  intros H. pose proof (parse_log_line_result line) as C.
  destruct (parse_time_str line) as [ts|] eqn:Ets; [|congruence].
  destruct (@parsed_numbers line ts Ets)
    as (y & mo & d & h & mi & se & _ & _ & _ & _ & _ & _ & B & Edt).
  destruct (_datetime ts) as [dt|e] eqn:E; [|destruct C; congruence].
  destruct (Re.re_match regex_line line) as [m|]; [|congruence].
  destruct C as (c & k & _ & _ & _ & Hk & C).
  rewrite C in H. injection H as <-. cbn [LogLine.TimeStamp LogLine.Kind].
  split; [eauto|]. split; [|eauto].
  symmetry in Edt. apply datetime_new_ok in Edt. destruct Edt as [-> V].
  cbn [year month day hour minute second]. lia.
Qed.

Lemma parse_log_line_record_witness :
  (exists ts, parse_time_str "29/02/2024 7:05 2 times oral (partner)" = Some ts
              /\ _datetime ts = Ok (mk_datetime 2024 2 29 7 5 0))
  /\ ((1 <= 2024 <= 99 \/ 1900 <= 2024 <= 2999) /\ 1 <= 2 <= 12
      /\ 1 <= 29 <= days_in_month 2024 2
      /\ 0 <= 7 <= 23 /\ 0 <= 5 <= 59 /\ 0 <= 0 <= 59)%Z
  /\ exists k, VStr "oral (partner)" = VStr k /\ kind_text k.
Proof.
  exact (@parse_log_line_record "29/02/2024 7:05 2 times oral (partner)"
           (LogLine.mk (mk_datetime 2024 2 29 7 5 0) 2 (VStr "oral (partner)"))
           eq_refl).
Defined.

(** X7.  The grammars take dates that are no dates: a line whose year,
    month or day reads as 0, or whose day is past the end of its month,
    makes [parse_log_line] raise a [ValueError], whatever follows the
    timestamp. *)
Theorem impossible_date_raises (line : string) (ts : TimeStamp) (y mo d : Z) :
  parse_time_str line = Some ts ->
  py_int (Year ts) = Ok y -> py_int (Month ts) = Ok mo -> py_int (Day ts) = Ok d ->
  (y = 0 \/ mo = 0 \/ d = 0 \/ days_in_month y mo < d)%Z ->
  parse_log_line line = Raise ValueError.
Proof.
  intros H Ey Emo Ed Hbad.
  destruct (@parsed_numbers line ts H)
    as (y' & mo' & d' & h & mi & se & Ey' & Emo' & Ed' & _ & _ & _ & _ & Edt).
  assert (y' = y) by congruence. assert (mo' = mo) by congruence.
  assert (d' = d) by congruence. subst y' mo' d'.
  unfold parse_log_line. rewrite H, Edt.
  rewrite datetime_new_invalid by lia. reflexivity.
Qed.

Lemma impossible_date_raises_witness :
  parse_log_line "2021-02-30*14:30 1 time kissing" = Raise ValueError.
Proof.
  apply (@impossible_date_raises "2021-02-30*14:30 1 time kissing"
           (mk_TimeStamp (VStr "2021") (VStr "02") (VStr "30")
                         (VStr "14") (VStr "30") VNone) 2021 2 30);
    try reflexivity.
  right. right. right. reflexivity.
Defined.

(** X8.  No input is matched by both patterns of [parse_time_str], so the
    order in which the set [acceptable_regex] is iterated cannot change
    the result. *)
Theorem grammars_disjoint (s : string) :
  (Re.re_match regex_ymd s = None \/ Re.re_match regex_dmy s = None)
  /\ first_match [regex_dmy; regex_ymd] s = first_match [regex_ymd; regex_dmy] s.
Proof.
  split; [|apply parse_time_str_order].
  destruct (stamp regex_ymd s) as [ts|] eqn:E.
  - right.
    destruct (@ymd_shape s ts E) as (y & mo & d & h & mi & se & rest & Hok & -> & _).
    pose proof (@ymd_not_dmy y mo d h mi se rest Hok) as N.
    unfold stamp in N. now destruct (Re.re_match regex_dmy _).
  - left. unfold stamp in E. now destruct (Re.re_match regex_ymd s).
Qed.

(** ** [read_activity_log] and the choice of reader *)

Lemma parse_log_line_exn line e :
  parse_log_line line = Raise e -> e = TypeError \/ e = ValueError.
Proof.
  intros H. pose proof (parse_log_line_result line) as C.
  destruct (parse_time_str line) as [ts|]; [|congruence].
  destruct (_datetime ts) as [dt|e'].
  - destruct (Re.re_match regex_line line) as [m|].
    + destruct C as (c & k & _ & _ & _ & _ & C). congruence.
    + left. congruence.
  - destruct C as [-> C]. right. congruence.
Qed.

Lemma map_parse_log_line_raises lines l e :
  In l lines -> parse_log_line l = Raise e ->
  exists e', map_parse_log_line lines = Raise e'
             /\ (e' = TypeError \/ e' = ValueError).
Proof.
  induction lines as [|x lines IH]; intros Hin H; [destruct Hin|].
  cbn [map_parse_log_line].
  destruct (parse_log_line x) as [r|e'] eqn:Ex.
  - destruct Hin as [-> | Hin]; [congruence|].
    destruct (IH Hin H) as (e' & -> & He'). exists e'. auto.
  - exists e'. split; [reflexivity | now apply (@parse_log_line_exn x)].
Qed.

(** X9.  One line after the header on which [parse_log_line] raises ends
    [read_activity_log] with a [TypeError] or a [ValueError]: no frame is
    returned, whatever the other lines hold. *)
Theorem read_activity_log_bad_line
        (open_text : string -> result string)
        (DataFrame_of : list (option LogLine.t) -> result DataFrame)
        (fp text l : string) (header : Z) (e : exn) :
  open_text fp = Ok text ->
  In l (slice_from header (readlines text)) ->
  parse_log_line l = Raise e ->
  exists e', read_activity_log open_text DataFrame_of fp header = Raise e'
             /\ (e' = TypeError \/ e' = ValueError).
Proof.
  intros Hopen Hin H. unfold read_activity_log. rewrite Hopen. cbn [bind].
  destruct (@map_parse_log_line_raises _ _ _ Hin H) as (e' & -> & He').
  exists e'. auto.
Qed.

Lemma read_activity_log_bad_line_witness :
  exists e',
    read_activity_log
      (fun _ => Ok (header_text ["when what"; "2021-05-01*14:30 3 times oral";
                                 "2021-05-02*09:00 hello"]))
      (fun rows => Ok (mk_DataFrame (List.length rows) []))
      "log.txt" 1
    = Raise e'
    /\ (e' = TypeError \/ e' = ValueError).
Proof.
  apply (@read_activity_log_bad_line
           (fun _ => Ok (header_text ["when what"; "2021-05-01*14:30 3 times oral";
                                      "2021-05-02*09:00 hello"]))
           (fun rows => Ok (mk_DataFrame (List.length rows) []))
           "log.txt" _ (String.append "2021-05-02*09:00 hello" (String "010" ""))
           1 TypeError eq_refl).
  - vm_compute. right. left. reflexivity.
  - reflexivity.
Defined.

Lemma readlines_line l rest :
  has_newline l = false ->
  readlines (l ++ String "010" rest) = (l ++ String "010" "") :: readlines rest.
Proof.
  induction l as [|c l IH]; intros H.
  - reflexivity.
  - cbn [has_newline] in H. apply orb_false_elim in H. destruct H as [Hc Hl].
    cbn [append readlines]. rewrite Hc, (IH Hl). reflexivity.
Qed.

Lemma readlines_header ls body :
  forallb (fun l => negb (has_newline l)) ls = true ->
  readlines (header_text ls ++ body)
  = (map (fun l => (l ++ String "010" "")%string) ls ++ readlines body)%list.
Proof.
  induction ls as [|l ls IH]; intros H; [reflexivity|].
  cbn [forallb] in H. apply andb_prop in H. destruct H as [Hl Hls].
  apply negb_true_iff in Hl.
  cbn [header_text]. rewrite append_assoc. cbn [append].
  rewrite (@readlines_line _ _ Hl), (IH Hls). reflexivity.
Qed.

Lemma slice_header (A : Type) (hs body : list A) :
  slice_from (Z.of_nat (List.length hs)) (hs ++ body)%list = body.
Proof.
  unfold slice_from.
  destruct (Z.ltb_spec (Z.of_nat (List.length hs)) 0) as [H|H]; [lia|].
  rewrite Nat2Z.id, skipn_app, skipn_all, Nat.sub_diag. reflexivity.
Qed.

(** X10.  The header lines are dropped unread: two files that differ only
    in their header lines, as many in each as [header] says, give the same
    result, so nothing in a header can raise an error or add a row. *)
Theorem read_activity_log_header
        (open_text : string -> result string)
        (DataFrame_of : list (option LogLine.t) -> result DataFrame)
        (fp fp' body : string) (hs hs' : list string) :
  open_text fp = Ok (header_text hs ++ body) ->
  open_text fp' = Ok (header_text hs' ++ body) ->
  forallb (fun l => negb (has_newline l)) hs = true ->
  forallb (fun l => negb (has_newline l)) hs' = true ->
  List.length hs = List.length hs' ->
  read_activity_log open_text DataFrame_of fp (Z.of_nat (List.length hs))
  = read_activity_log open_text DataFrame_of fp' (Z.of_nat (List.length hs)).
Proof.
  intros Hfp Hfp' Hn Hn' Hlen. unfold read_activity_log.
  rewrite Hfp, Hfp'. cbn [bind].
  rewrite (@readlines_header hs body Hn), (@readlines_header hs' body Hn').
  rewrite <- (length_map (fun l => l ++ String "010" "") hs) at 1.
  rewrite slice_header.
  rewrite Hlen, <- (length_map (fun l => l ++ String "010" "") hs').
  rewrite slice_header. reflexivity.
Qed.

Lemma read_activity_log_header_witness :
  read_activity_log
    (fun fp => if String.eqb fp "a.txt"
               then Ok (header_text ["2021-05-01*14:30 hello"]
                        ++ header_text ["2021-05-01*14:30 3 times oral"])
               else Ok (header_text ["when what"]
                        ++ header_text ["2021-05-01*14:30 3 times oral"]))
    (fun rows => Ok (mk_DataFrame (List.length rows) []))
    "a.txt" (Z.of_nat (List.length ["2021-05-01*14:30 hello"]))
  = read_activity_log
      (fun fp => if String.eqb fp "a.txt"
                 then Ok (header_text ["2021-05-01*14:30 hello"]
                          ++ header_text ["2021-05-01*14:30 3 times oral"])
                 else Ok (header_text ["when what"]
                          ++ header_text ["2021-05-01*14:30 3 times oral"]))
      (fun rows => Ok (mk_DataFrame (List.length rows) []))
      "b.txt" (Z.of_nat (List.length ["2021-05-01*14:30 hello"])).
Proof.
  apply (@read_activity_log_header _ _ "a.txt" "b.txt"
           (header_text ["2021-05-01*14:30 3 times oral"])
           ["2021-05-01*14:30 hello"] ["when what"]); reflexivity.
Defined.

(** X11.  A log with nothing after its header lines has no rows for
    pandas, whose frame of no rows has no column: [read_activity_log] then
    raises an [AttributeError] at [df.TimeStamp] instead of returning an
    empty record set. *)
Theorem read_activity_log_nothing_after_header
        (open_text : string -> result string)
        (DataFrame_of : list (option LogLine.t) -> result DataFrame)
        (fp text : string) (header : Z) :
  open_text fp = Ok text ->
  (Z.of_nat (List.length (readlines text)) <= header)%Z ->
  DataFrame_of [] = Ok (mk_DataFrame 0 []) ->
  read_activity_log open_text DataFrame_of fp header = Raise AttributeError.
Proof.
  intros Hopen Hlen Hdf. unfold read_activity_log. rewrite Hopen. cbn [bind].
  assert (E : slice_from header (readlines text) = []).
  { unfold slice_from. destruct (Z.ltb_spec header 0) as [H|H]; [lia|].
    apply skipn_all2. lia. }
  rewrite E. cbn [map_parse_log_line bind]. rewrite Hdf. reflexivity.
Qed.

Lemma read_activity_log_nothing_after_header_witness :
  read_activity_log (fun _ => Ok (header_text ["when what"]))
                    (fun rows => Ok (mk_DataFrame (List.length rows) []))
                    "log.txt" 1
  = Raise AttributeError.
Proof.
  apply (@read_activity_log_nothing_after_header
           (fun _ => Ok (header_text ["when what"]))
           (fun rows => Ok (mk_DataFrame (List.length rows) []))
           "log.txt" (header_text ["when what"]) 1 eq_refl).
  - vm_compute. discriminate.
  - reflexivity.
Defined.

Lemma has_dot_append a b : has_dot (a ++ b) = has_dot a || has_dot b.
Proof.
  induction a as [|c a IH]; [reflexivity|].
  cbn [append has_dot]. now rewrite IH, orb_assoc.
Qed.

Lemma after_last_dot_csv file :
  after_last_dot file = "csv"
  <-> file = "csv" \/ exists stem, file = stem ++ ".csv".
Proof.
  split.
  - induction file as [|c t IH]; [discriminate|].
    cbn [after_last_dot]. destruct (has_dot t) eqn:Hd.
    + intros H. destruct (IH H) as [-> | (stem & ->)]; [discriminate|].
      right. now exists (String c stem).
    + destruct (Ascii.eqb c ".") eqn:Hc.
      * apply Ascii.eqb_eq in Hc. subst c. intros ->. right. now exists "".
      * auto.
  - intros [-> | (stem & ->)]; [reflexivity|].
    induction stem as [|c stem IH]; [reflexivity|].
    cbn [append after_last_dot]. rewrite has_dot_append.
    change (has_dot ".csv") with true. now rewrite orb_true_r.
Qed.

(** X12.  The script reads a file as a health export exactly when its name
    is [csv] or ends in [.csv], in these very letters; any other name,
    [x.CSV] or [x.csv.txt] too, is read as a log with one header line. *)
Theorem log_lines_reader
        (open_text : string -> result string)
        (DataFrame_of : list (option LogLine.t) -> result DataFrame)
        (read_csv : string -> ascii -> result DataFrame) (file : string) :
  ((file = "csv" \/ exists stem, file = stem ++ ".csv") ->
   log_lines open_text DataFrame_of read_csv file
   = read_activity_whealth read_csv file)
  /\ (~ (file = "csv" \/ exists stem, file = stem ++ ".csv") ->
      log_lines open_text DataFrame_of read_csv file
      = read_activity_log open_text DataFrame_of file 1).
Proof.
  unfold log_lines.
  destruct (String.eqb (after_last_dot file) "csv") eqn:E.
  - apply String.eqb_eq in E. split; [reflexivity|].
    intros H. elim H. now apply after_last_dot_csv.
  - apply String.eqb_neq in E. split; [|reflexivity].
    intros H. elim E. now apply after_last_dot_csv.
Qed.

Lemma log_lines_reader_witness :
  log_lines (fun _ => Raise OSError)
            (fun rows => Ok (mk_DataFrame (List.length rows) []))
            (fun _ _ => Raise OSError) "data/export.csv"
  = read_activity_whealth (fun _ _ => Raise OSError) "data/export.csv"
  /\ log_lines (fun _ => Raise OSError)
               (fun rows => Ok (mk_DataFrame (List.length rows) []))
               (fun _ _ => Raise OSError) "export.CSV"
     = read_activity_log (fun _ => Raise OSError)
                         (fun rows => Ok (mk_DataFrame (List.length rows) []))
                         "export.CSV" 1.
Proof.
  split.
  - apply (proj1 (log_lines_reader _ _ _ "data/export.csv")).
    right. now exists "data/export".
  - apply (proj2 (log_lines_reader _ _ _ "export.CSV")).
    intros [H | (stem & H)]; [discriminate|].
    assert (E : after_last_dot "export.CSV" = "csv").
    { apply after_last_dot_csv. right. now exists stem. }
    discriminate.
Defined.

(** ** The buckets of [time_function] *)

Lemma in_hours h : (0 <= h <= 23)%Z -> In h hours.
Proof.
  intros H. unfold hours. rewrite <- (Z2Nat.id h) by lia.
  apply in_map, in_seq. lia.
Qed.

Ltac each_one :=
  repeat (apply Forall_cons; [vm_compute; reflexivity|]); apply Forall_nil.

Lemma round_half_hour m :
  (0 <= m <= 59)%Z ->
  py_round (PrimFloat.mul (truediv m 60) (py_float 2)) = Ok (half_index m).
Proof.
  apply (@rounds_to_minutes (fun m => PrimFloat.mul (truediv m 60) (py_float 2))
           half_index).
  vm_compute. reflexivity.
Qed.

Lemma round_quarter_hour m :
  (0 <= m <= 59)%Z ->
  py_round (PrimFloat.mul (truediv m 60) (py_float 4)) = Ok (quarter_index m).
Proof.
  apply (@rounds_to_minutes (fun m => PrimFloat.mul (truediv m 60) (py_float 4))
           quarter_index).
  vm_compute. reflexivity.
Qed.

Lemma round_tenth_hour m :
  (0 <= m <= 59)%Z ->
  py_round1 (truediv m 60) = truediv (tenth_index m) 10.
Proof.
  intros H. apply in_minutes in H. revert m H. apply Forall_forall.
  let l := eval vm_compute in minutes in change minutes with l.
  each_one.
Qed.

Lemma next_hour h :
  (0 <= h <= 23)%Z -> PrimFloat.add (py_float h) 1%float = py_float (h + 1).
Proof.
  intros H. apply in_hours in H. revert h H. apply Forall_forall.
  let l := eval vm_compute in hours in change hours with l.
  each_one.
Qed.

(** X13.  From 51 to 100 rows the minutes 0 to 15 of an hour get the hour,
    16 to 44 the half hour and 45 to 59 the next hour; from 101 to 200 rows
    the quarters change after the minutes 7, 22, 37 and 52.  The ties at 15
    and 45 minutes go to the even number of half hours. *)
Theorem half_and_quarter_hour_buckets (df : DataFrame) (x : datetime) :
  (0 <= minute x <= 59)%Z ->
  ((50 < index df <= 100)%nat ->
   time_function df x
   = Ok (NFloat (PrimFloat.add (py_float (hour x))
                               (truediv (half_index (minute x)) 2))))
  /\ ((100 < index df <= 200)%nat ->
      time_function df x
      = Ok (NFloat (PrimFloat.add (py_float (hour x))
                                  (truediv (quarter_index (minute x)) 4)))).
Proof.
  intros Hm. unfold time_function, fn. split; intros [H1 H2].
  - apply Nat.leb_gt in H1. apply Nat.leb_le in H2. rewrite H1, H2.
    now rewrite (round_half_hour Hm).
  - assert (H0 : (50 < index df)%nat) by lia.
    apply Nat.leb_gt in H0, H1. apply Nat.leb_le in H2. rewrite H0, H1, H2.
    now rewrite (round_quarter_hour Hm).
Qed.

Lemma half_and_quarter_hour_buckets_witness :
  time_function (mk_DataFrame 100 []) (mk_datetime 2021 5 1 14 15 0)
  = Ok (NFloat 14%float)
  /\ time_function (mk_DataFrame 200 []) (mk_datetime 2021 5 1 14 8 0)
     = Ok (NFloat 14.25%float).
Proof.
  split.
  - refine (proj1 (@half_and_quarter_hour_buckets
                     (mk_DataFrame 100 []) (mk_datetime 2021 5 1 14 15 0) _) _);
      cbn [index minute]; lia.
  - refine (proj2 (@half_and_quarter_hour_buckets
                     (mk_DataFrame 200 []) (mk_datetime 2021 5 1 14 8 0) _) _);
      cbn [index minute]; lia.
Defined.

(** X14.  Beyond 200 rows the tenths of an hour change after the minutes
    2, 9, 15, 21, 26, 32, 38, 44, 51 and 57: the buckets are 3, 7, 6, 6, 5,
    6, 6, 6, 7, 6 and 2 minutes wide, as the binary value of [minute/60]
    falls on either side of a half tenth. *)
Theorem tenth_hour_buckets (df : DataFrame) (x : datetime) :
  (200 < index df)%nat ->
  (0 <= minute x <= 59)%Z ->
  time_function df x
  = Ok (NFloat (PrimFloat.add (py_float (hour x))
                              (truediv (tenth_index (minute x)) 10))).
Proof.
  intros H Hm. unfold time_function, fn.
  assert (H0 : (50 < index df)%nat) by lia.
  assert (H1 : (100 < index df)%nat) by lia.
  apply Nat.leb_gt in H0, H1, H. rewrite H0, H1, H.
  now rewrite (round_tenth_hour Hm).
Qed.

Lemma tenth_hour_buckets_witness :
  time_function (mk_DataFrame 201 []) (mk_datetime 2021 5 1 14 27 0)
  = Ok (NFloat 14.5%float).
Proof.
  apply (@tenth_hour_buckets (mk_DataFrame 201 []) (mk_datetime 2021 5 1 14 27 0)).
  - cbn [index]. lia.
  - cbn [minute]. lia.
Defined.

(** X15.  At every precision the minute 59 of an hour gets the value of the
    next hour, the one that minute 0 of that hour gets; 23:59 gets 24,
    which is no hour of the day. *)
Theorem last_minute_is_next_hour (df : DataFrame) (x : datetime) :
  (0 <= hour x <= 23)%Z ->
  minute x = 59%Z ->
  time_function df x
  = Ok (if (index df <=? 50)%nat then NInt (hour x + 1)
        else NFloat (py_float (hour x + 1))).
Proof.
  intros Hh Hm. unfold time_function, fn. rewrite Hm.
  destruct (index df <=? 50)%nat.
  - rewrite round_whole_hour by lia. reflexivity.
  - destruct (index df <=? 100)%nat; [|destruct (index df <=? 200)%nat].
    + rewrite round_half_hour by lia. cbn [bind].
      change (truediv (half_index 59) 2) with 1%float.
      now rewrite (next_hour Hh).
    + rewrite round_quarter_hour by lia. cbn [bind].
      change (truediv (quarter_index 59) 4) with 1%float.
      now rewrite (next_hour Hh).
    + change (py_round1 (truediv 59 60)) with 1%float.
      now rewrite (next_hour Hh).
Qed.

Lemma last_minute_is_next_hour_witness :
  time_function (mk_DataFrame 3 []) (mk_datetime 2021 5 1 23 59 0) = Ok (NInt 24)
  /\ time_function (mk_DataFrame 300 []) (mk_datetime 2021 5 1 23 59 0)
     = Ok (NFloat 24%float).
Proof.
  split.
  - apply (@last_minute_is_next_hour (mk_DataFrame 3 [])
             (mk_datetime 2021 5 1 23 59 0)); [cbn [hour]; lia | reflexivity].
  - apply (@last_minute_is_next_hour (mk_DataFrame 300 [])
             (mk_datetime 2021 5 1 23 59 0)); [cbn [hour]; lia | reflexivity].
Defined.

(** ** What [read_activity_whealth] keeps and what it checks *)

Lemma lookup_In V (cols : list (string * V)) l v :
  lookup cols l = Some v -> In (l, v) cols.
Proof.
  induction cols as [|[k w] cols IH]; [discriminate|]. cbn [lookup].
  destruct (String.eqb k l) eqn:E.
  - apply String.eqb_eq in E. intros [= ->]. subst. now left.
  - intros H. right. auto.
Qed.

Lemma well_formed_lookup df l v :
  well_formed df -> lookup (columns df) l = Some v -> List.length v = index df.
Proof.
  intros W H. apply lookup_In in H. unfold well_formed in W.
  rewrite Forall_forall in W. exact (W _ H).
Qed.

Lemma well_formed_drop labels df df' :
  well_formed df -> drop labels df = Ok df' ->
  well_formed df' /\ index df' = index df.
Proof.
  unfold drop. intros W. destruct (forallb _ labels); [|discriminate].
  intros [= <-]. split; [|reflexivity].
  unfold well_formed in *. cbn [columns index].
  rewrite Forall_forall in *. intros c Hc. apply filter_In in Hc. now apply W.
Qed.

Lemma well_formed_rename mapping df :
  well_formed df -> well_formed (rename mapping df).
Proof.
  unfold well_formed, rename. cbn [columns index]. intros W.
  rewrite Forall_forall in *. intros c Hc. apply in_map_iff in Hc.
  destruct Hc as ([k v] & <- & Hc). specialize (W _ Hc). cbn [fst snd] in *.
  now destruct (lookup mapping k).
Qed.

Lemma well_formed_replace cols l v n :
  Forall (fun c : string * list cell => List.length (snd c) = n) cols ->
  List.length v = n ->
  Forall (fun c : string * list cell => List.length (snd c) = n)
         (replace_column cols l v).
Proof.
  intros W Hv. induction W as [|[k w] cols Hw W IH]; [constructor|].
  cbn [replace_column]. destruct (String.eqb k l); constructor; auto.
Qed.

Lemma well_formed_setitem df l v :
  well_formed df -> List.length v = index df -> well_formed (setitem df l v).
Proof.
  unfold well_formed, setitem. cbn [columns index]. intros W Hv.
  destruct (has_label (columns df) l).
  - now apply well_formed_replace.
  - apply Forall_app. split; [assumption|]. now repeat constructor.
Qed.

(** X16.  [read_activity_whealth] keeps a frame well formed: when every
    column of the table read is as long as its index, so is every column
    of the result, the converted [TimeStamp] and the new [Kind] included,
    and the index is unchanged. *)
Theorem read_activity_whealth_well_formed
        (read_csv : string -> ascii -> result DataFrame)
        (fp : string) (df0 df : DataFrame) :
  read_csv fp ";"%char = Ok df0 ->
  well_formed df0 ->
  read_activity_whealth read_csv fp = Ok df ->
  well_formed df /\ index df = index df0.
Proof.
  intros Hread W H. unfold read_activity_whealth in H. rewrite Hread in H.
  cbn [bind] in H.
  apply bind_ok in H. destruct H as (df1 & Hdrop & H).
  apply bind_ok in H. destruct H as (col & Hcol & H).
  apply bind_ok in H. destruct H as (ts & Hts & H).
  injection H as <-.
  destruct (@well_formed_drop _ _ _ W Hdrop) as [W1 I1].
  pose proof (@well_formed_rename [("startdate", "TimeStamp"); ("value", "Repeat")]
                df1 W1) as W2.
  set (df2 := rename [("startdate", "TimeStamp"); ("value", "Repeat")] df1) in *.
  assert (I2 : index df2 = index df0) by exact I1.
  assert (Lcol : List.length col = index df2).
  { unfold getattr in Hcol.
    destruct (lookup (columns df2) "TimeStamp") as [c|] eqn:E; [|discriminate].
    injection Hcol as <-. exact (@well_formed_lookup _ _ _ W2 E). }
  assert (Lts : List.length ts = index df2).
  { apply to_datetime_each, Forall2_length in Hts. lia. }
  split; [|exact I2].
  unfold setitem_scalar. apply well_formed_setitem.
  - now apply well_formed_setitem.
  - apply repeat_length.
Qed.

Lemma read_activity_whealth_well_formed_witness :
  exists df,
    read_activity_whealth (read_csv_plain [("export.csv", export_csv)]) "export.csv"
    = Ok df
    /\ well_formed df /\ index df = 1%nat.
Proof.
  eexists. split; [reflexivity|].
  apply (@read_activity_whealth_well_formed
           (read_csv_plain [("export.csv", export_csv)]) "export.csv"
           (mk_DataFrame 1 [("startdate", [CStr "2021-05-01T14:30:00"]);
                            ("value", [CInt 3]); ("unit", [CStr "count"]);
                            ("name", [CStr "Sex"]);
                            ("source", [CStr "Manual Entry"])])).
  - reflexivity.
  - repeat constructor.
  - reflexivity.
Defined.

Lemma whealth_renamed (df0 df1 : DataFrame) (old new : string) :
  drop ["unit"; "name"; "source"] df0 = Ok df1 ->
  In (old, new) [("startdate", "TimeStamp"); ("value", "Repeat")] ->
  lookup (columns df0) new = None ->
  lookup (columns (rename [("startdate", "TimeStamp"); ("value", "Repeat")] df1)) new
  = lookup (columns df0) old.
Proof.
  unfold drop. destruct (forallb _ _); [|discriminate]. intros [= <-] Hin Hnew.
  set (keep := fun l => negb (existsb (String.eqb l) ["unit"; "name"; "source"])).
  set (df1 := mk_DataFrame _ _).
  assert (L1 : forall l, lookup (columns df1) l
                         = if keep l then lookup (columns df0) l else None).
  { intros l. exact (@lookup_filter _ keep (columns df0) l). }
  rewrite (@lookup_rename _ df1 old new).
  - rewrite L1. simpl in Hin. now destruct Hin as [[= <- <-] | [[= <- <-] | []]].
  - simpl in Hin. now destruct Hin as [[= <- <-] | [[= <- <-] | []]].
  - intros l Hl Hne. rewrite L1.
    destruct (@renamed_cases _ _ Hl) as [[-> ->] | [[-> ->] | ->]].
    + simpl in Hin. destruct Hin as [[= <-] | [[= E] | []]]; congruence.
    + simpl in Hin. destruct Hin as [[= E] | [[= <-] | []]]; congruence.
    + rewrite Hnew. now destruct (keep new).
Qed.

(** X17.  Of the columns of an export [read_activity_whealth] checks
    [unit], [name] and [source] (a [KeyError] when one is missing) and
    [startdate] (an [AttributeError] when it is missing), and not
    [value]: an export without it is read without an error, into a frame
    that has no [Repeat] column. *)
Theorem read_activity_whealth_checks
        (read_csv : string -> ascii -> result DataFrame)
        (fp : string) (df0 : DataFrame) :
  read_csv fp ";"%char = Ok df0 ->
  (forallb (has_label (columns df0)) ["unit"; "name"; "source"] = false ->
   read_activity_whealth read_csv fp = Raise KeyError)
  /\ (forallb (has_label (columns df0)) ["unit"; "name"; "source"] = true ->
      lookup (columns df0) "startdate" = None ->
      lookup (columns df0) "TimeStamp" = None ->
      read_activity_whealth read_csv fp = Raise AttributeError)
  /\ (forall ds ts,
        forallb (has_label (columns df0)) ["unit"; "name"; "source"] = true ->
        lookup (columns df0) "startdate" = Some ds ->
        lookup (columns df0) "TimeStamp" = None ->
        to_datetime ds = Ok ts ->
        lookup (columns df0) "value" = None ->
        lookup (columns df0) "Repeat" = None ->
        exists df, read_activity_whealth read_csv fp = Ok df
                   /\ lookup (columns df) "Repeat" = None).
Proof.
  intros Hread. unfold read_activity_whealth. rewrite Hread. cbn [bind].
  split; [|split].
  - intros H. unfold drop. now rewrite H.
  - intros Hd Hs Ht.
    destruct (drop ["unit"; "name"; "source"] df0) as [df1|e] eqn:E;
      [|unfold drop in E; rewrite Hd in E; discriminate].
    cbn [bind]. unfold getattr.
    rewrite (@whealth_renamed df0 df1 "startdate" "TimeStamp" E); [|simpl; auto|exact Ht].
    now rewrite Hs.
  - intros ds ts Hd Hs Ht Hts Hv Hr.
    destruct (drop ["unit"; "name"; "source"] df0) as [df1|e] eqn:E;
      [|unfold drop in E; rewrite Hd in E; discriminate].
    cbn [bind]. unfold getattr.
    rewrite (@whealth_renamed df0 df1 "startdate" "TimeStamp" E); [|simpl; auto|exact Ht].
    rewrite Hs. cbn [bind]. rewrite Hts. cbn [bind].
    eexists. split; [reflexivity|].
    unfold setitem_scalar. rewrite !lookup_setitem.
    cbn [String.eqb Ascii.eqb Bool.eqb].
    rewrite (@whealth_renamed df0 df1 "value" "Repeat" E); [|simpl; auto|exact Hr].
    exact Hv.
Qed.

Lemma read_activity_whealth_checks_witness :
  read_activity_whealth
    (fun _ _ => Ok (mk_DataFrame 1 [("startdate", [CStr "2021-05-01T14:30:00"]);
                                    ("value", [CInt 3])]))
    "export.csv"
  = Raise KeyError.
Proof.
  apply (proj1 (@read_activity_whealth_checks
                  (fun _ _ => Ok (mk_DataFrame 1
                                    [("startdate", [CStr "2021-05-01T14:30:00"]);
                                     ("value", [CInt 3])]))
                  "export.csv" _ eq_refl)).
  reflexivity.
Defined.
